(** * LeafletProvider: a shallow embedding of
      src/xch/providers/leaflet/leaflet_provider.ts

    The provider is a typed facade over a [MessageManager]: every query
    builds a request packet, wraps it with [makeMsg], and registers a
    filter whose [consumeMessage] closure recognises the answer among the
    inbound frames.  The closures mutate local variables of the enclosing
    call (or a field of the provider); they are embedded as computations in
    a small state-and-exception monad over exactly those variables.

    Collaborators that live outside leaflet_provider.ts (the address codec,
    the serializer, the translation helpers of ProviderUtil, the message
    manager) are interfaces here: classes and section variables.

    Embedded methods: the constructor, [connect], [getNetworkId],
    [isConnected], [getBlockNumber], [getBalance],
    [subscribeToPuzzleHashUpdates], [subscribeToCoinUpdates],
    [getPuzzleSolution], [getCoinChildren], [getBlocksHeaders],
    [getCoinRemovals] and the five methods that only throw. *)

From Stdlib Require Import String Ascii List ZArith Bool Lia.
Import ListNotations.

Local Open Scope string_scope.
Local Open Scope Z_scope.

(** ** Basic JavaScript values *)

(** Hashes, coin ids and addresses are hex / bech32m strings. *)
Definition bytes := string.

(** Unsigned protocol integers and [BigNumber]s are unbounded integers. *)
Definition uint := Z.
Definition BigNumber := Z.

(** [s.length === 0] *)
Definition isEmpty (s : string) : bool := Nat.eqb (String.length s) 0.

(** [arr.includes(x)] on an array of strings. *)
Definition includes (x : string) (arr : list string) : bool :=
  existsb (String.eqb x) arr.

(** What a [throw] carries. *)
Inductive Exn : Type :=
| DecodeError                 (* Serializer.deserialize failed *)
| NumericFault                (* BigNumber overflow *)
| TypeError                   (* property read on undefined *)
| Error (message : string).   (* new Error(message) *)

Inductive Outcome (A : Type) : Type :=
| Ok (a : A)
| Raise (e : Exn).
Arguments Ok {A} a.
Arguments Raise {A} e.

(** [BigNumber.from(x).toNumber()]: exact inside the 53-bit safe range, a
    thrown fault outside of it. *)
Definition MAX_SAFE : Z := 2 ^ 53 - 1.

Definition toNumber (x : BigNumber) : Outcome Z :=
  if Z.abs x <=? MAX_SAFE then Ok x else Raise NumericFault.

(** ** Closures over mutable variables

    A closure that reads and writes captured variables of type [S] and may
    throw.  Every closure of the provider writes only after its last
    operation that can throw, so a throw never leaves a partial write
    behind and [Raise] carries no state. *)
Definition Closure (S A : Type) : Type := S -> Outcome (A * S).

Definition ret {S A} (a : A) : Closure S A := fun s => Ok (a, s).

Definition bind {S A B} (c : Closure S A) (f : A -> Closure S B) : Closure S B :=
  fun s => match c s with
           | Ok (a, s') => f a s'
           | Raise e => Raise e
           end.

Definition get {S} : Closure S S := fun s => Ok (s, s).
Definition put {S} (s' : S) : Closure S unit := fun _ => Ok (tt, s').
Definition throw {S A} (e : Exn) : Closure S A := fun _ => Raise e.

Definition liftOutcome {S A} (o : Outcome A) : Closure S A :=
  fun s => match o with Ok a => Ok (a, s) | Raise e => Raise e end.

Declare Scope closure_scope.
Delimit Scope closure_scope with closure.
Notation "x <- c1 ;; c2" := (bind c1 (fun x => c2))
  (at level 61, c1 at next level, right associativity) : closure_scope.
Notation "c1 ;; c2" := (bind c1 (fun _ => c2))
  (at level 61, right associativity) : closure_scope.

(** ** Protocol message types

    The members of the [ProtocolMessageTypes] enumeration that
    leaflet_provider.ts names. *)
Inductive ProtocolMessageTypes : Type :=
| new_peak_wallet
| register_interest_in_puzzle_hash
| respond_to_ph_update
| register_interest_in_coin
| respond_to_coin_update
| request_puzzle_solution
| respond_puzzle_solution
| reject_puzzle_solution
| request_children
| respond_children
| request_block_header
| respond_block_header
| reject_header_request
| request_header_blocks
| respond_header_blocks
| reject_header_blocks
| request_removals
| respond_removals
| reject_removals_request
| request_additions
| respond_additions
| reject_additions_request.

Definition ProtocolMessageTypes_eq_dec (a b : ProtocolMessageTypes) : {a = b} + {a <> b}.
Proof. decide equality. Defined.

(** [a === b] on message type codes. *)
Definition type_eqb (a b : ProtocolMessageTypes) : bool :=
  if ProtocolMessageTypes_eq_dec a b then true else false.

(** ** Wallet-protocol packets (the fields the provider touches) *)

Module Coin.
Record t : Type := { parentCoinInfo : bytes; puzzleHash : bytes; amount : uint }.
End Coin.

Module CoinState.
Record t : Type :=
  { coin : Coin.t; spentHeight : option uint; createdHeight : option uint }.
End CoinState.

Module NewPeakWallet.
Record t : Type := { height : uint }.
End NewPeakWallet.

Module RegisterForPhUpdates.
Record t : Type := { puzzleHashes : list bytes; minHeight : uint }.
End RegisterForPhUpdates.

Module RespondToPhUpdates.
Record t : Type :=
  { puzzleHashes : list bytes; minHeight : uint; coinStates : list CoinState.t }.
End RespondToPhUpdates.

Module RegisterForCoinUpdates.
Record t : Type := { coinIds : list bytes; minHeight : uint }.
End RegisterForCoinUpdates.

Module RespondToCoinUpdates.
Record t : Type :=
  { coinIds : list bytes; minHeight : uint; coinStates : list CoinState.t }.
End RespondToCoinUpdates.

(** CLVM programs carried by puzzle solutions. *)
Inductive SExp : Type :=
| Atom (a : bytes)
| Pair (first rest : SExp).

Module RequestPuzzleSolution.
Record t : Type := { coinName : bytes; height : uint }.
End RequestPuzzleSolution.

Module RejectPuzzleSolution.
Record t : Type := { coinName : bytes; height : uint }.
End RejectPuzzleSolution.

Module PuzzleSolutionResponse.
Record t : Type :=
  { coinName : bytes; height : uint; puzzle : SExp; solution : SExp }.
End PuzzleSolutionResponse.

Module RespondPuzzleSolution.
Record t : Type := { response : PuzzleSolutionResponse.t }.
End RespondPuzzleSolution.

Module RequestChildren.
Record t : Type := { coinName : bytes }.
End RequestChildren.

Module RespondChildren.
Record t : Type := { coinStates : list CoinState.t }.
End RespondChildren.

Module RequestHeaderBlocks.
Record t : Type := { startHeight : uint; endHeight : uint }.
End RequestHeaderBlocks.

Module RejectHeaderBlocks.
Record t : Type := { startHeight : uint; endHeight : uint }.
End RejectHeaderBlocks.

Module RespondHeaderBlocks.
Record t (HeaderBlock : Type) : Type :=
  { startHeight : uint; endHeight : uint; headerBlocks : list HeaderBlock }.
Arguments startHeight {HeaderBlock} _.
Arguments endHeight {HeaderBlock} _.
Arguments headerBlocks {HeaderBlock} _.
End RespondHeaderBlocks.

Module RequestRemovals.
Record t : Type :=
  { height : uint; headerHash : bytes; coinNames : option (list bytes) }.
End RequestRemovals.

Module RejectRemovalsRequest.
Record t : Type := { height : uint; headerHash : bytes }.
End RejectRemovalsRequest.

Module RespondRemovals.
Record t : Type :=
  { height : uint; headerHash : bytes; coins : list (bytes * option Coin.t) }.
End RespondRemovals.

(** ** Interfaces of the collaborators *)

(** [AddressUtil]: both methods answer the empty string when the input is
    not a valid address, respectively not a valid hash. *)
Class AddressUtil : Type :=
  { addressToPuzzleHash : string -> bytes;
    validateHashString : string -> bytes }.

(** [Util.coin]: the coin id, a hash of the coin's three fields. *)
Class CoinUtil : Type := { getId : Coin.t -> bytes }.

(** A packet class the [Serializer] can write and read back. *)
Class Streamable (Buffer T : Type) : Type :=
  { serialize : T -> Buffer;
    deserialize : Buffer -> option T }.

(** The packet classes used by the provider, over one wire format. *)
Class Serializer (Buffer HeaderBlock : Type) : Type :=
  { NewPeakWallet_streamable :: Streamable Buffer NewPeakWallet.t;
    RegisterForPhUpdates_streamable :: Streamable Buffer RegisterForPhUpdates.t;
    RespondToPhUpdates_streamable :: Streamable Buffer RespondToPhUpdates.t;
    RegisterForCoinUpdates_streamable :: Streamable Buffer RegisterForCoinUpdates.t;
    RespondToCoinUpdates_streamable :: Streamable Buffer RespondToCoinUpdates.t;
    RequestPuzzleSolution_streamable :: Streamable Buffer RequestPuzzleSolution.t;
    RejectPuzzleSolution_streamable :: Streamable Buffer RejectPuzzleSolution.t;
    RespondPuzzleSolution_streamable :: Streamable Buffer RespondPuzzleSolution.t;
    RequestChildren_streamable :: Streamable Buffer RequestChildren.t;
    RespondChildren_streamable :: Streamable Buffer RespondChildren.t;
    RequestHeaderBlocks_streamable :: Streamable Buffer RequestHeaderBlocks.t;
    RejectHeaderBlocks_streamable :: Streamable Buffer RejectHeaderBlocks.t;
    RespondHeaderBlocks_streamable ::
      Streamable Buffer (RespondHeaderBlocks.t HeaderBlock);
    RequestRemovals_streamable :: Streamable Buffer RequestRemovals.t;
    RejectRemovalsRequest_streamable :: Streamable Buffer RejectRemovalsRequest.t;
    RespondRemovals_streamable :: Streamable Buffer RespondRemovals.t }.

(** ** Messages, filters and tasks *)

(** An inbound or outbound frame. *)
Record Message (Buffer : Type) : Type := { type : ProtocolMessageTypes; data : Buffer }.
Arguments type {Buffer} _.
Arguments data {Buffer} _.

(** [makeMsg(type, packet)]: the serialized packet in its envelope.  The
    byte encoding of the envelope itself belongs to the channel. *)
Definition makeMsg {Buffer T} `{Streamable Buffer T}
    (ty : ProtocolMessageTypes) (pckt : T) : Message Buffer :=
  {| type := ty; data := serialize pckt |}.

(** [Serializer.deserialize(T, msg.data)] inside a closure. *)
Definition decode {Buffer S} (T : Type) `{Streamable Buffer T}
    (buf : Buffer) : Closure S T :=
  fun s => match deserialize buf with
           | Some pckt => Ok (pckt, s)
           | None => Raise DecodeError
           end.

(** The object handed to [messageManager.registerFilter]; [S] is the type
    of the variables its closure captures.  The two optional fields are
    [None] where the call site leaves them out. *)
Record Filter (Buffer S : Type) : Type :=
  { messageToSend : option (Message Buffer);
    consumeMessage : Message Buffer -> Closure S bool;
    deleteAfterFirstMessageConsumed : option bool;
    expectedMaxRensponseWait : option Z }.
Arguments messageToSend {Buffer S} _.
Arguments consumeMessage {Buffer S} _.
Arguments deleteAfterFirstMessageConsumed {Buffer S} _.
Arguments expectedMaxRensponseWait {Buffer S} _.

(** An [async] provider method: it either resolves without touching the
    message manager, or awaits one [registerFilter] call and then finishes
    from the final values [S] of its local variables. *)
Inductive Task (Buffer R : Type) : Type :=
| Return (r : R)
| Await (S : Type) (f : Filter Buffer S) (s0 : S) (k : S -> Outcome R).
Arguments Return {Buffer R} r.
Arguments Await {Buffer R} S f s0 k.

(** The frame a task hands to the channel, if any. *)
Definition frameSent {Buffer R} (t : Task Buffer R) : option (Message Buffer) :=
  match t with
  | Return _ => None
  | Await _ f _ _ => messageToSend f
  end.

(** Whether a task registers a filter. *)
Definition registersFilter {Buffer R} (t : Task Buffer R) : bool :=
  match t with
  | Return _ => false
  | Await _ _ _ _ => true
  end.

(** ** The message manager, as one filter sees it *)

Section Dispatch.
Context {Buffer : Type}.

(** Modelled from the spec: [MessageManager] (message_manager.ts is not
    among the sources).  Inbound frames reach a filter in arrival order;
    a one-shot filter (the default, [deleteAfterFirstMessageConsumed]
    left out) completes its waiter the first time [consumeMessage]
    returns true and is then removed.  A predicate that throws is
    isolated: the frame is not consumed by this filter and the captured
    variables keep their values.  [offer f s frames] is the consumed
    frame with the variables at completion, [None] while the waiter is
    still pending. *)
Fixpoint offer {S} (f : Filter Buffer S) (s : S) (frames : list (Message Buffer))
    : option (Message Buffer * S) :=
  match frames with
  | [] => None
  | msg :: rest =>
      match consumeMessage f msg s with
      | Ok (true, s') => Some (msg, s')
      | Ok (false, s') => offer f s' rest
      | Raise _ => offer f s rest
      end
  end.

(** Modelled from the spec: the frame that completes an awaiting task. *)
Definition consumedFrame {R} (t : Task Buffer R) (frames : list (Message Buffer))
    : option (Message Buffer) :=
  match t with
  | Return _ => None
  | Await _ f s0 _ => option_map fst (offer f s0 frames)
  end.

(** Modelled from the spec: what the awaited call returns once the
    frames have arrived; [None] while it is still pending. *)
Definition complete {R} (t : Task Buffer R) (frames : list (Message Buffer))
    : option (Outcome R) :=
  match t with
  | Return r => Some (Ok r)
  | Await _ f s0 k => option_map (fun c => k (snd c)) (offer f s0 frames)
  end.

(** Modelled from the spec: a persistent filter
    ([deleteAfterFirstMessageConsumed = false]) stays installed and sees
    every frame; [feed] is the value of its captured variables after
    [frames]. *)
Fixpoint feed {S} (f : Filter Buffer S) (s : S) (frames : list (Message Buffer)) : S :=
  match frames with
  | [] => s
  | msg :: rest =>
      match consumeMessage f msg s with
      | Ok (_, s') => feed f s' rest
      | Raise _ => feed f s rest
      end
  end.

(** Modelled from the spec: the frames a persistent filter consumed, in
    arrival order. *)
Fixpoint consumedFrames {S} (f : Filter Buffer S) (s : S) (frames : list (Message Buffer))
    : list (Message Buffer) :=
  match frames with
  | [] => []
  | msg :: rest =>
      match consumeMessage f msg s with
      | Ok (true, s') => msg :: consumedFrames f s' rest
      | Ok (false, s') => consumedFrames f s' rest
      | Raise _ => consumedFrames f s rest
      end
  end.

(** A synchronous method that may call [registerFilter] once without
    awaiting it: the captured variables after [frames]. *)
Definition deliver {S} (registered : option (Filter Buffer S)) (s : S)
    (frames : list (Message Buffer)) : S :=
  match registered with
  | None => s
  | Some f => feed f s frames
  end.

(** The frame such a method hands to the channel, if any. *)
Definition frameSentBy {S} (registered : option (Filter Buffer S))
    : option (Message Buffer) :=
  match registered with
  | None => None
  | Some f => messageToSend f
  end.

(** [msg] is the first frame of [frames] that satisfies [P]. *)
Definition firstAccepted (P : Message Buffer -> Prop) (frames : list (Message Buffer))
    (msg : Message Buffer) : Prop :=
  exists pre post,
    frames = (pre ++ msg :: post)%list /\ P msg /\ forall m, In m pre -> ~ P m.

(** [P] describes the frames a closure accepts: it returns true exactly
    on them, and leaves the captured variables alone on the others. *)
Definition acceptsExactly {S} (P : Message Buffer -> Prop) (f : Filter Buffer S) : Prop :=
  forall msg s,
    match consumeMessage f msg s with
    | Ok (true, _) => P msg
    | Ok (false, s') => ~ P msg /\ s' = s
    | Raise _ => ~ P msg
    end.
End Dispatch.

(** ** The provider *)

(** The translation helpers of [ProviderUtil] and the public types they
    produce (provider_util.ts and provider_types.ts are not among the
    sources). *)
Class ProviderUtil (HeaderBlock : Type) : Type :=
  { ProviderCoin : Type;
    ProviderCoinState : Type;
    ProviderBlockHeader : Type;
    ProviderPuzzleSolution : Type;
    serializerCoinToProviderCoin : Coin.t -> ProviderCoin;
    serializerCoinStateToProviderCoinState : CoinState.t -> ProviderCoinState;
    serializerHeaderBlockToProviderBlockHeader :
      HeaderBlock -> BigNumber -> ProviderBlockHeader;
    serializerPuzzleSolutionResponseToProviderPuzzleSolution :
      PuzzleSolutionResponse.t -> ProviderPuzzleSolution }.

(** Modelled from the spec: the part of [MessageManager] the provider
    reads, its connection flag. *)
Record MessageManager : Type := { open : bool }.

(** The fields of a [LeafletProvider] instance. *)
Record LeafletProvider : Type :=
  { messageManager : MessageManager;
    blockNumber : option Z;
    networkId : string }.

(** [let respPckt = new P(); let returnNull = false;] A freshly
    constructed packet has no field set and is [None] until a response is
    stored. *)
Record Locals (P : Type) : Type := { respPckt : option P; returnNull : bool }.
Arguments respPckt {P} _.
Arguments returnNull {P} _.

Definition ADDRESS_PREFIX : string := "xch".

(** [for (let i = 0; i < arr.length; ++i) out.push(f(i, arr[i]))] *)
Fixpoint pushEach {A B} (f : Z -> A -> B) (i : Z) (arr : list A) : list B :=
  match arr with
  | [] => []
  | x :: rest => f i x :: pushEach f (i + 1) rest
  end.

Section Provider.
Context {Buffer HeaderBlock : Type}.
Context `{AddressUtil} `{CoinUtil} `{Serializer Buffer HeaderBlock}
        `{ProviderUtil HeaderBlock}.

Local Open Scope closure_scope.

(** [new LeafletProvider(host, apiKey, port = 18444, networkId = "mainnet")] *)
Definition new_LeafletProvider (host apiKey : string) (port : option Z)
    (networkId : option string) : LeafletProvider :=
  {| messageManager := {| open := false |};
     blockNumber := None;
     networkId := match networkId with Some n => n | None => "mainnet" end |}.

(** The closure registered by [connect]; it captures [this].  (Here the
    source first wraps [msg.data] with [Buffer.from(..., "hex")]; the
    other closures pass [msg.data] as it is.  Both are the frame's data.) *)
Definition connect_consumeMessage (msg : Message Buffer) : Closure LeafletProvider bool :=
  if negb (type_eqb (type msg) new_peak_wallet) then ret false else
  pckt <- decode NewPeakWallet.t (data msg) ;;
  n <- liftOutcome (toNumber (NewPeakWallet.height pckt)) ;;
  this <- get ;;
  put {| messageManager := messageManager this;
         blockNumber := Some n;
         networkId := networkId this |} ;;
  ret true.

(** [connect()]: after [messageManager.initialize()], the peak watcher
    it registers. *)
Definition connect : Filter Buffer LeafletProvider :=
  {| messageToSend := None;
     consumeMessage := connect_consumeMessage;
     deleteAfterFirstMessageConsumed := Some false;
     expectedMaxRensponseWait := Some (120 * 1000) |}.

Definition getNetworkId (this : LeafletProvider) : string := networkId this.

Definition isConnected (this : LeafletProvider) : bool := open (messageManager this).

Definition getBlockNumber (this : LeafletProvider) : Task Buffer (option Z) :=
  Return (blockNumber this).

(** *** getBalance *)

(** The first statement of [getBalance]: the puzzle hash it goes on with,
    [None] where it returns null. *)
Definition getBalance_puzHash (address puzzleHash : option string) : option bytes :=
  let otherwise :=
    match puzzleHash with
    | Some ph => Some (validateHashString ph)
    | None => None
    end in
  match address with
  | Some addr =>
      if prefix ADDRESS_PREFIX addr then
        let puzHash := addressToPuzzleHash addr in
        if isEmpty puzHash then None else Some puzHash
      else otherwise
  | None => otherwise
  end.

(** The closure of [getBalance]; it captures [coinStates]. *)
Definition getBalance_consumeMessage (puzHash : bytes) (msg : Message Buffer)
    : Closure (list CoinState.t) bool :=
  if negb (type_eqb (type msg) respond_to_ph_update) then ret false else
  rPckt <- decode RespondToPhUpdates.t (data msg) ;;
  if negb (includes puzHash (RespondToPhUpdates.puzzleHashes rPckt)) then ret false else
  put (filter (fun cs => Coin.puzzleHash (CoinState.coin cs) =? puzHash)%string
              (RespondToPhUpdates.coinStates rPckt)) ;;
  ret true.

(** [coinState.spentHeight == null] *)
Definition isNull {A} (x : option A) : bool :=
  match x with None => true | Some _ => false end.

Definition getBalance (address puzzleHash : option string) (minHeight : option Z)
    : Task Buffer (option BigNumber) :=
  match getBalance_puzHash address puzzleHash with
  | None => Return None
  | Some puzHash =>
      let pckt :=
        {| RegisterForPhUpdates.minHeight :=
             match minHeight with Some h => h | None => 0 end;
           RegisterForPhUpdates.puzzleHashes := [puzHash] |} in
      let msgToSend := makeMsg register_interest_in_puzzle_hash pckt in
      Await (list CoinState.t)
        {| messageToSend := Some msgToSend;
           consumeMessage := getBalance_consumeMessage puzHash;
           deleteAfterFirstMessageConsumed := None;
           expectedMaxRensponseWait := None |}
        []
        (fun coinStates =>
           let unspentCoins :=
             filter (fun coinState => isNull (CoinState.spentHeight coinState))
                    coinStates in
           Ok (Some (fold_left
                       (fun balance cs => balance + Coin.amount (CoinState.coin cs))
                       unspentCoins 0)))
  end.

(** *** Subscriptions

    The user callback runs inside the closure; [U] is whatever state of
    the application it writes to. *)
Definition call {U A} (callback : A -> U -> U) (a : A) : Closure U unit :=
  fun u => Ok (tt, callback a u).

Definition subscribeToPuzzleHashUpdates {U} (puzzleHash : string)
    (callback : list CoinState.t -> U -> U) (minHeight : option Z)
    : option (Filter Buffer U) :=
  let puzzleHash := validateHashString puzzleHash in
  if isEmpty puzzleHash then None else
  let pckt :=
    {| RegisterForPhUpdates.minHeight :=
         match minHeight with Some h => h | None => 0 end;
       RegisterForPhUpdates.puzzleHashes := [puzzleHash] |} in
  let msgToSend := makeMsg register_interest_in_puzzle_hash pckt in
  Some
    {| messageToSend := Some msgToSend;
       consumeMessage := fun msg =>
         if negb (type_eqb (type msg) respond_to_ph_update) then ret false else
         rPckt <- decode RespondToPhUpdates.t (data msg) ;;
         if negb (includes puzzleHash (RespondToPhUpdates.puzzleHashes rPckt))
         then ret false else
         let coins :=
           filter (fun cs => Coin.puzzleHash (CoinState.coin cs) =? puzzleHash)%string
                  (RespondToPhUpdates.coinStates rPckt) in
         call callback coins ;;
         ret true;
       deleteAfterFirstMessageConsumed := Some false;
       expectedMaxRensponseWait := Some 0 |}.

Definition subscribeToCoinUpdates {U} (coinId : string)
    (callback : list CoinState.t -> U -> U) (minHeight : option Z)
    : option (Filter Buffer U) :=
  let coinId := validateHashString coinId in
  if isEmpty coinId then None else
  let pckt :=
    {| RegisterForCoinUpdates.minHeight :=
         match minHeight with Some h => h | None => 0 end;
       RegisterForCoinUpdates.coinIds := [coinId] |} in
  let msgToSend := makeMsg register_interest_in_coin pckt in
  Some
    {| messageToSend := Some msgToSend;
       consumeMessage := fun msg =>
         if negb (type_eqb (type msg) respond_to_coin_update) then ret false else
         rPckt <- decode RespondToCoinUpdates.t (data msg) ;;
         if negb (includes coinId (RespondToCoinUpdates.coinIds rPckt))
         then ret false else
         let coins :=
           filter (fun cs => getId (CoinState.coin cs) =? coinId)%string
                  (RespondToCoinUpdates.coinStates rPckt) in
         call callback coins ;;
         ret true;
       deleteAfterFirstMessageConsumed := Some false;
       expectedMaxRensponseWait := Some 0 |}.

(** *** getPuzzleSolution *)

Definition getPuzzleSolution_consumeMessage (coinId : bytes) (height : uint)
    (msg : Message Buffer) : Closure (Locals PuzzleSolutionResponse.t) bool :=
  returned <-
    (if type_eqb (type msg) reject_puzzle_solution then
       rPckt <- decode RejectPuzzleSolution.t (data msg) ;;
       if (RejectPuzzleSolution.coinName rPckt =? coinId)%string
          && (RejectPuzzleSolution.height rPckt =? height)
       then
         l <- get ;;
         put {| respPckt := respPckt l; returnNull := true |} ;;
         ret true
       else ret false
     else ret false) ;;
  if returned then ret true else
  returned <-
    (if type_eqb (type msg) respond_puzzle_solution then
       rPckt <- decode RespondPuzzleSolution.t (data msg) ;;
       let response := RespondPuzzleSolution.response rPckt in
       if (PuzzleSolutionResponse.coinName response =? coinId)%string
          && (PuzzleSolutionResponse.height response =? height)
       then
         l <- get ;;
         put {| respPckt := Some response; returnNull := returnNull l |} ;;
         ret true
       else ret false
     else ret false) ;;
  if returned then ret true else
  ret false.

Definition getPuzzleSolution (coinId : string) (height : uint)
    : Task Buffer (option ProviderPuzzleSolution) :=
  let coinId := validateHashString coinId in
  if isEmpty coinId then Return None else
  let pckt :=
    {| RequestPuzzleSolution.coinName := coinId;
       RequestPuzzleSolution.height := height |} in
  let msgToSend := makeMsg request_puzzle_solution pckt in
  Await (Locals PuzzleSolutionResponse.t)
    {| messageToSend := Some msgToSend;
       consumeMessage := getPuzzleSolution_consumeMessage coinId height;
       deleteAfterFirstMessageConsumed := None;
       expectedMaxRensponseWait := None |}
    {| respPckt := None; returnNull := false |}
    (fun l =>
       if returnNull l then Ok None else
       match respPckt l with
       | Some response =>
           Ok (Some (serializerPuzzleSolutionResponseToProviderPuzzleSolution response))
       | None => Raise TypeError
       end).

(** *** getCoinChildren *)

Definition getCoinChildren_consumeMessage (coinId : bytes) (msg : Message Buffer)
    : Closure (option RespondChildren.t) bool :=
  if negb (type_eqb (type msg) respond_children) then ret false else
  rPckt <- decode RespondChildren.t (data msg) ;;
  if match RespondChildren.coinStates rPckt with
     | [] => true
     | first :: _ => (Coin.parentCoinInfo (CoinState.coin first) =? coinId)%string
     end
  then
    put (Some rPckt) ;;
    ret true
  else ret false.

Definition getCoinChildren (coinId : string) : Task Buffer (list ProviderCoinState) :=
  let coinId := validateHashString coinId in
  if isEmpty coinId then Return [] else
  let pckt := {| RequestChildren.coinName := coinId |} in
  let msgToSend := makeMsg request_children pckt in
  Await (option RespondChildren.t)
    {| messageToSend := Some msgToSend;
       consumeMessage := getCoinChildren_consumeMessage coinId;
       deleteAfterFirstMessageConsumed := None;
       expectedMaxRensponseWait := None |}
    None
    (fun respPckt =>
       match respPckt with
       | Some r =>
           Ok (pushEach (fun _ cs => serializerCoinStateToProviderCoinState cs) 0
                        (RespondChildren.coinStates r))
       | None => Raise TypeError
       end).

(** *** getBlocksHeaders *)

Definition getBlocksHeaders_consumeMessage (startHeight endHeight : uint)
    (msg : Message Buffer) : Closure (Locals (RespondHeaderBlocks.t HeaderBlock)) bool :=
  returned <-
    (if type_eqb (type msg) reject_header_blocks then
       rPckt <- decode RejectHeaderBlocks.t (data msg) ;;
       if (RejectHeaderBlocks.startHeight rPckt =? startHeight)
          && (RejectHeaderBlocks.endHeight rPckt =? endHeight)
       then
         l <- get ;;
         put {| respPckt := respPckt l; returnNull := true |} ;;
         ret true
       else ret false
     else ret false) ;;
  if returned then ret true else
  returned <-
    (if type_eqb (type msg) respond_header_blocks then
       rPckt <- decode (RespondHeaderBlocks.t HeaderBlock) (data msg) ;;
       if (RespondHeaderBlocks.startHeight rPckt =? startHeight)
          && (RespondHeaderBlocks.endHeight rPckt =? endHeight)
       then
         l <- get ;;
         put {| respPckt := Some rPckt; returnNull := returnNull l |} ;;
         ret true
       else ret false
     else ret false) ;;
  if returned then ret true else
  ret false.

Definition getBlocksHeaders (startHeight endHeight : uint)
    : Task Buffer (option (list ProviderBlockHeader)) :=
  let pckt :=
    {| RequestHeaderBlocks.startHeight := startHeight;
       RequestHeaderBlocks.endHeight := endHeight |} in
  let msgToSend := makeMsg request_header_blocks pckt in
  Await (Locals (RespondHeaderBlocks.t HeaderBlock))
    {| messageToSend := Some msgToSend;
       consumeMessage := getBlocksHeaders_consumeMessage startHeight endHeight;
       deleteAfterFirstMessageConsumed := None;
       expectedMaxRensponseWait := None |}
    {| respPckt := None; returnNull := false |}
    (fun l =>
       if returnNull l then Ok None else
       match respPckt l with
       | Some r =>
           Ok (Some (pushEach
                       (fun i headerBlock =>
                          serializerHeaderBlockToProviderBlockHeader headerBlock
                            (RespondHeaderBlocks.startHeight r + i))
                       0 (RespondHeaderBlocks.headerBlocks r)))
       | None => Raise TypeError
       end).

(** *** getCoinRemovals *)

(** The validation loop: [None] where it returns null on an element that
    fails validation, the parsed ids otherwise. *)
Fixpoint parseHashes (hashes : list string) : option (list bytes) :=
  match hashes with
  | [] => Some []
  | h :: rest =>
      let parsed := validateHashString h in
      if isEmpty parsed then None else
      match parseHashes rest with
      | Some parsedRest => Some (parsed :: parsedRest)
      | None => None
      end
  end.

Definition getCoinRemovals_consumeMessage (height : uint) (headerHash : bytes)
    (msg : Message Buffer) : Closure (Locals RespondRemovals.t) bool :=
  returned <-
    (if type_eqb (type msg) reject_removals_request then
       rPckt <- decode RejectRemovalsRequest.t (data msg) ;;
       if (RejectRemovalsRequest.height rPckt =? height)
          && (RejectRemovalsRequest.headerHash rPckt =? headerHash)%string
       then
         l <- get ;;
         put {| respPckt := respPckt l; returnNull := true |} ;;
         ret true
       else ret false
     else ret false) ;;
  if returned then ret true else
  returned <-
    (if type_eqb (type msg) respond_removals then
       rPckt <- decode RespondRemovals.t (data msg) ;;
       if (RespondRemovals.headerHash rPckt =? headerHash)%string
          && (RespondRemovals.height rPckt =? height)
       then
         l <- get ;;
         put {| respPckt := Some rPckt; returnNull := returnNull l |} ;;
         ret true
       else ret false
     else ret false) ;;
  if returned then ret true else
  ret false.

Definition getCoinRemovals (height : uint) (headerHash : string)
    (coinIds : option (list string)) : Task Buffer (option (list ProviderCoin)) :=
  let headerHash := validateHashString headerHash in
  if isEmpty headerHash then Return None else
  match (match coinIds with
         | Some ids => parseHashes ids
         | None => Some []
         end) with
  | None => Return None
  | Some parsedCoinIds =>
      let pckt :=
        {| RequestRemovals.height := height;
           RequestRemovals.headerHash := headerHash;
           RequestRemovals.coinNames :=
             match coinIds with Some _ => Some parsedCoinIds | None => None end |} in
      let msgToSend := makeMsg request_removals pckt in
      Await (Locals RespondRemovals.t)
        {| messageToSend := Some msgToSend;
           consumeMessage := getCoinRemovals_consumeMessage height headerHash;
           deleteAfterFirstMessageConsumed := None;
           expectedMaxRensponseWait := None |}
        {| respPckt := None; returnNull := false |}
        (fun l =>
           if returnNull l then Ok None else
           match respPckt l with
           | Some r =>
               Ok (Some (flat_map
                           (fun thing : bytes * option Coin.t =>
                              match snd thing with
                              | Some c => [serializerCoinToProviderCoin c]
                              | None => []
                              end)
                           (RespondRemovals.coins r)))
           | None => Raise TypeError
           end)
  end.

(** *** Methods the Leaflet provider does not implement

    Each body is a single [throw]; the argument is never inspected. *)
Definition notImplemented : Exn :=
  Error "LeafletProvider does not implement this method.".

Definition getAddress (this : LeafletProvider) : Outcome (Task Buffer string) :=
  Raise notImplemented.

Definition transfer {transferArgs : Type} (this : LeafletProvider)
    (args : transferArgs) : Outcome (Task Buffer bool) :=
  Raise notImplemented.

Definition transferCAT {transferCATArgs : Type} (this : LeafletProvider)
    (args : transferCATArgs) : Outcome (Task Buffer bool) :=
  Raise notImplemented.

Definition acceptOffer {acceptOfferArgs : Type} (this : LeafletProvider)
    (args : acceptOfferArgs) : Outcome (Task Buffer bool) :=
  Raise notImplemented.

Definition subscribeToAddressChanges {subscribeToAddressChangesArgs : Type}
    (this : LeafletProvider) (args : subscribeToAddressChangesArgs)
    : Outcome unit :=
  Raise notImplemented.
End Provider.

(** ** A concrete set of collaborators

    One instance of every interface above, on which the provider can be
    run: a transparent wire format (a frame's data is the packet itself),
    a hex validator, a one-entry address book, and translations that keep
    the fields. *)
Module Sample.

(** Header blocks are named by their header hash. *)
Definition HeaderBlock : Type := bytes.

Inductive Wire : Type :=
| WNewPeakWallet (p : NewPeakWallet.t)
| WRegisterForPhUpdates (p : RegisterForPhUpdates.t)
| WRespondToPhUpdates (p : RespondToPhUpdates.t)
| WRegisterForCoinUpdates (p : RegisterForCoinUpdates.t)
| WRespondToCoinUpdates (p : RespondToCoinUpdates.t)
| WRequestPuzzleSolution (p : RequestPuzzleSolution.t)
| WRejectPuzzleSolution (p : RejectPuzzleSolution.t)
| WRespondPuzzleSolution (p : RespondPuzzleSolution.t)
| WRequestChildren (p : RequestChildren.t)
| WRespondChildren (p : RespondChildren.t)
| WRequestHeaderBlocks (p : RequestHeaderBlocks.t)
| WRejectHeaderBlocks (p : RejectHeaderBlocks.t)
| WRespondHeaderBlocks (p : RespondHeaderBlocks.t HeaderBlock)
| WRequestRemovals (p : RequestRemovals.t)
| WRejectRemovalsRequest (p : RejectRemovalsRequest.t)
| WRespondRemovals (p : RespondRemovals.t)
| WGarbage.

#[export] Instance serializer : Serializer Wire HeaderBlock :=
  {| NewPeakWallet_streamable :=
       {| serialize := WNewPeakWallet;
          deserialize := fun w => match w with WNewPeakWallet p => Some p | _ => None end |};
     RegisterForPhUpdates_streamable :=
       {| serialize := WRegisterForPhUpdates;
          deserialize := fun w => match w with WRegisterForPhUpdates p => Some p | _ => None end |};
     RespondToPhUpdates_streamable :=
       {| serialize := WRespondToPhUpdates;
          deserialize := fun w => match w with WRespondToPhUpdates p => Some p | _ => None end |};
     RegisterForCoinUpdates_streamable :=
       {| serialize := WRegisterForCoinUpdates;
          deserialize := fun w => match w with WRegisterForCoinUpdates p => Some p | _ => None end |};
     RespondToCoinUpdates_streamable :=
       {| serialize := WRespondToCoinUpdates;
          deserialize := fun w => match w with WRespondToCoinUpdates p => Some p | _ => None end |};
     RequestPuzzleSolution_streamable :=
       {| serialize := WRequestPuzzleSolution;
          deserialize := fun w => match w with WRequestPuzzleSolution p => Some p | _ => None end |};
     RejectPuzzleSolution_streamable :=
       {| serialize := WRejectPuzzleSolution;
          deserialize := fun w => match w with WRejectPuzzleSolution p => Some p | _ => None end |};
     RespondPuzzleSolution_streamable :=
       {| serialize := WRespondPuzzleSolution;
          deserialize := fun w => match w with WRespondPuzzleSolution p => Some p | _ => None end |};
     RequestChildren_streamable :=
       {| serialize := WRequestChildren;
          deserialize := fun w => match w with WRequestChildren p => Some p | _ => None end |};
     RespondChildren_streamable :=
       {| serialize := WRespondChildren;
          deserialize := fun w => match w with WRespondChildren p => Some p | _ => None end |};
     RequestHeaderBlocks_streamable :=
       {| serialize := WRequestHeaderBlocks;
          deserialize := fun w => match w with WRequestHeaderBlocks p => Some p | _ => None end |};
     RejectHeaderBlocks_streamable :=
       {| serialize := WRejectHeaderBlocks;
          deserialize := fun w => match w with WRejectHeaderBlocks p => Some p | _ => None end |};
     RespondHeaderBlocks_streamable :=
       {| serialize := WRespondHeaderBlocks;
          deserialize := fun w => match w with WRespondHeaderBlocks p => Some p | _ => None end |};
     RequestRemovals_streamable :=
       {| serialize := WRequestRemovals;
          deserialize := fun w => match w with WRequestRemovals p => Some p | _ => None end |};
     RejectRemovalsRequest_streamable :=
       {| serialize := WRejectRemovalsRequest;
          deserialize := fun w => match w with WRejectRemovalsRequest p => Some p | _ => None end |};
     RespondRemovals_streamable :=
       {| serialize := WRespondRemovals;
          deserialize := fun w => match w with WRespondRemovals p => Some p | _ => None end |} |}.

Definition isHexDigit (c : ascii) : bool :=
  let n := nat_of_ascii c in
  ((48 <=? n) && (n <=? 57) || (65 <=? n) && (n <=? 70) || (97 <=? n) && (n <=? 102))%nat.

Fixpoint allHex (s : string) : bool :=
  match s with
  | EmptyString => true
  | String c rest => isHexDigit c && allHex rest
  end.

(** Modelled from the spec: the hash validator of [AddressUtil]
    (address.ts is not among the sources) accepts the hex form of a
    32-byte value and answers the empty string for anything else. *)
Definition validHash (s : string) : bytes :=
  if Nat.eqb (String.length s) 64 && allHex s then s else "".

Definition knownAddress : string :=
  "xch1kzstrsknun6sv9eg8999kmra3606pvwz60j02psh9qu55kmv0k8qym53m0".
Definition knownPuzzleHash : bytes :=
  "b0a0b1c2d3e4f5061728394a5b6c7d8e9fa0b1c2d3e4f5061728394a5b6c7d8e".
Definition otherPuzzleHash : bytes :=
  "00112233445566778899aabbccddeeff00112233445566778899aabbccddeeff".
Definition someCoinId : bytes :=
  "c0ffee00c0ffee00c0ffee00c0ffee00c0ffee00c0ffee00c0ffee00c0ffee00".

(** Modelled from the spec: the bech32m decoder of [AddressUtil], cut
    down to an address book of one entry; every other string fails to
    decode. *)
Definition decodeAddress (address : string) : bytes :=
  if (address =? knownAddress)%string then knownPuzzleHash else "".

#[export] Instance addressUtil : AddressUtil :=
  {| addressToPuzzleHash := decodeAddress;
     validateHashString := validHash |}.

(** A stand-in for the coin id: the fields side by side instead of their
    sha256. *)
#[export] Instance coinUtil : CoinUtil :=
  {| getId := fun c => Coin.parentCoinInfo c ++ Coin.puzzleHash c |}.

Record BlockHeader : Type := { height : BigNumber; headerHash : bytes }.

#[export] Instance providerUtil : ProviderUtil HeaderBlock :=
  {| ProviderCoin := Coin.t;
     ProviderCoinState := CoinState.t;
     ProviderBlockHeader := BlockHeader;
     ProviderPuzzleSolution := PuzzleSolutionResponse.t;
     serializerCoinToProviderCoin := fun c => c;
     serializerCoinStateToProviderCoinState := fun cs => cs;
     serializerHeaderBlockToProviderBlockHeader :=
       fun hb h => {| height := h; headerHash := hb |};
     serializerPuzzleSolutionResponseToProviderPuzzleSolution := fun r => r |}.

Definition mkCoinState (parent ph : bytes) (amount : uint) (spent : option uint)
    : CoinState.t :=
  {| CoinState.coin :=
       {| Coin.parentCoinInfo := parent; Coin.puzzleHash := ph; Coin.amount := amount |};
     CoinState.spentHeight := spent;
     CoinState.createdHeight := Some 1 |}.

(** Inbound frames for the balance of [knownPuzzleHash]: a frame that
    does not decode, an update for another hash, then the update with two
    unspent coins of 100 and 250, a coin of another hash and a spent
    coin. *)
Definition undecodable (ty : ProtocolMessageTypes) : Message Wire :=
  {| type := ty; data := WGarbage |}.

Definition otherUpdate : Message Wire :=
  {| type := respond_to_ph_update;
     data := WRespondToPhUpdates
               {| RespondToPhUpdates.puzzleHashes := [otherPuzzleHash];
                  RespondToPhUpdates.minHeight := 0;
                  RespondToPhUpdates.coinStates :=
                    [mkCoinState someCoinId otherPuzzleHash 9 None] |} |}.

Definition balanceUpdate : Message Wire :=
  {| type := respond_to_ph_update;
     data := WRespondToPhUpdates
               {| RespondToPhUpdates.puzzleHashes := [otherPuzzleHash; knownPuzzleHash];
                  RespondToPhUpdates.minHeight := 0;
                  RespondToPhUpdates.coinStates :=
                    [mkCoinState someCoinId knownPuzzleHash 100 None;
                     mkCoinState someCoinId knownPuzzleHash 250 None;
                     mkCoinState someCoinId otherPuzzleHash 7 None;
                     mkCoinState someCoinId knownPuzzleHash 40 (Some 42)] |} |}.

Definition balanceFrames : list (Message Wire) :=
  [undecodable respond_to_ph_update; otherUpdate; balanceUpdate; otherUpdate].

(** Frames for the puzzle solution of [someCoinId] at height 5. *)
Definition solutionResponse : PuzzleSolutionResponse.t :=
  {| PuzzleSolutionResponse.coinName := someCoinId;
     PuzzleSolutionResponse.height := 5;
     PuzzleSolutionResponse.puzzle := Pair (Atom "01") (Atom "02");
     PuzzleSolutionResponse.solution := Atom "80" |}.

Definition solutionRespond : Message Wire :=
  {| type := respond_puzzle_solution;
     data := WRespondPuzzleSolution
               {| RespondPuzzleSolution.response := solutionResponse |} |}.

Definition solutionReject (height : uint) : Message Wire :=
  {| type := reject_puzzle_solution;
     data := WRejectPuzzleSolution
               {| RejectPuzzleSolution.coinName := someCoinId;
                  RejectPuzzleSolution.height := height |} |}.

Definition solutionFrames : list (Message Wire) :=
  [solutionReject 6; balanceUpdate; solutionRespond; solutionReject 5].

Definition rejectionFrames : list (Message Wire) :=
  [solutionReject 6; solutionReject 5; solutionRespond].

(** Frames for the children of [someCoinId]. *)
Definition childrenOf (parent : bytes) : Message Wire :=
  {| type := respond_children;
     data := WRespondChildren
               {| RespondChildren.coinStates :=
                    [mkCoinState parent knownPuzzleHash 1 None;
                     mkCoinState parent otherPuzzleHash 2 (Some 8)] |} |}.

Definition noChildren : Message Wire :=
  {| type := respond_children;
     data := WRespondChildren {| RespondChildren.coinStates := [] |} |}.

Definition childrenFrames : list (Message Wire) :=
  [childrenOf otherPuzzleHash; childrenOf someCoinId; noChildren].

(** Frames for the headers 100 to 102. *)
Definition headersRespond (startHeight endHeight : uint) : Message Wire :=
  {| type := respond_header_blocks;
     data := WRespondHeaderBlocks
               {| RespondHeaderBlocks.startHeight := startHeight;
                  RespondHeaderBlocks.endHeight := endHeight;
                  RespondHeaderBlocks.headerBlocks := ["aa"; "bb"; "cc"] |} |}.

Definition headersReject (startHeight endHeight : uint) : Message Wire :=
  {| type := reject_header_blocks;
     data := WRejectHeaderBlocks
               {| RejectHeaderBlocks.startHeight := startHeight;
                  RejectHeaderBlocks.endHeight := endHeight |} |}.

Definition headersFrames : list (Message Wire) :=
  [headersReject 100 103; headersRespond 99 102; headersRespond 100 102].

(** Peak announcements, with other traffic in between. *)
Definition peak (height : uint) : Message Wire :=
  {| type := new_peak_wallet;
     data := WNewPeakWallet {| NewPeakWallet.height := height |} |}.

Definition peakFrames : list (Message Wire) :=
  [peak 10; undecodable new_peak_wallet; peak 12; noChildren; peak (2 ^ 60)].

(** A callback that records every list it is called with. *)
Definition record (coins : list CoinState.t) (calls : list (list CoinState.t))
    : list (list CoinState.t) :=
  (calls ++ [coins])%list.
End Sample.

(** ** The answers the provider waits for

    What the specification says about an inbound frame, in terms of its
    type code and its decoded packet. *)
Section Answers.
Context {Buffer HeaderBlock : Type}.
Context `{AddressUtil} `{Serializer Buffer HeaderBlock}.

(** A hash string that [validateHashString] turns down. *)
Definition failsValidation (s : string) : Prop := validateHashString s = "".

(** An address that [addressToPuzzleHash] cannot decode. *)
Definition failsDecoding (address : string) : Prop := addressToPuzzleHash address = "".

(** A [respond_to_ph_update] whose [puzzleHashes] contains [puzHash]. *)
Definition answersPhUpdate (puzHash : bytes) (msg : Message Buffer) : Prop :=
  type msg = respond_to_ph_update /\
  exists rPckt : RespondToPhUpdates.t,
    deserialize (data msg) = Some rPckt /\
    In puzHash (RespondToPhUpdates.puzzleHashes rPckt).

(** A [reject_puzzle_solution] for this coin and height. *)
Definition rejectsPuzzleSolution (coinId : bytes) (height : uint)
    (msg : Message Buffer) : Prop :=
  type msg = reject_puzzle_solution /\
  exists rPckt : RejectPuzzleSolution.t,
    deserialize (data msg) = Some rPckt /\
    RejectPuzzleSolution.coinName rPckt = coinId /\
    RejectPuzzleSolution.height rPckt = height.

(** A [respond_puzzle_solution] whose response is for this coin and
    height. *)
Definition respondsPuzzleSolution (coinId : bytes) (height : uint)
    (msg : Message Buffer) : Prop :=
  type msg = respond_puzzle_solution /\
  exists rPckt : RespondPuzzleSolution.t,
    deserialize (data msg) = Some rPckt /\
    PuzzleSolutionResponse.coinName (RespondPuzzleSolution.response rPckt) = coinId /\
    PuzzleSolutionResponse.height (RespondPuzzleSolution.response rPckt) = height.

(** A [respond_children] whose coin-state list is empty or starts with a
    child of [coinId]. *)
Definition respondsChildren (coinId : bytes) (msg : Message Buffer) : Prop :=
  type msg = respond_children /\
  exists rPckt : RespondChildren.t,
    deserialize (data msg) = Some rPckt /\
    (RespondChildren.coinStates rPckt = [] \/
     exists first rest,
       RespondChildren.coinStates rPckt = first :: rest /\
       Coin.parentCoinInfo (CoinState.coin first) = coinId).

(** A [reject_header_blocks] for this range. *)
Definition rejectsHeaderBlocks (startHeight endHeight : uint)
    (msg : Message Buffer) : Prop :=
  type msg = reject_header_blocks /\
  exists rPckt : RejectHeaderBlocks.t,
    deserialize (data msg) = Some rPckt /\
    RejectHeaderBlocks.startHeight rPckt = startHeight /\
    RejectHeaderBlocks.endHeight rPckt = endHeight.

(** A [respond_header_blocks] for this range. *)
Definition respondsHeaderBlocks (startHeight endHeight : uint)
    (msg : Message Buffer) : Prop :=
  type msg = respond_header_blocks /\
  exists rPckt : RespondHeaderBlocks.t HeaderBlock,
    deserialize (data msg) = Some rPckt /\
    RespondHeaderBlocks.startHeight rPckt = startHeight /\
    RespondHeaderBlocks.endHeight rPckt = endHeight.
End Answers.

(** ** The rest of the provider: getBlockHeader and getCoinAdditions *)

Module RequestBlockHeader.
Record t : Type := { height : uint }.
End RequestBlockHeader.

Module RejectHeaderRequest.
Record t : Type := { height : uint }.
End RejectHeaderRequest.

Module RespondBlockHeader.
Record t (HeaderBlock : Type) : Type := { headerBlock : HeaderBlock }.
Arguments headerBlock {HeaderBlock} _.
End RespondBlockHeader.

Module RequestAdditions.
Record t : Type :=
  { height : uint; headerHash : bytes; puzzleHashes : option (list bytes) }.
End RequestAdditions.

Module RejectAdditionsRequest.
Record t : Type := { height : uint; headerHash : bytes }.
End RejectAdditionsRequest.

Module RespondAdditions.
Record t : Type :=
  { height : uint; headerHash : bytes; coins : list (bytes * list Coin.t) }.
End RespondAdditions.

(** [headerBlock.rewardChainBlock.height], the one field of a header block
    the provider reads. *)
Class HeaderBlockFields (HeaderBlock : Type) : Type :=
  { rewardChainBlock_height : HeaderBlock -> uint }.

(** The packet classes of [getBlockHeader] and [getCoinAdditions]. *)
Class HeaderAndAdditionsSerializer (Buffer HeaderBlock : Type) : Type :=
  { RequestBlockHeader_streamable :: Streamable Buffer RequestBlockHeader.t;
    RejectHeaderRequest_streamable :: Streamable Buffer RejectHeaderRequest.t;
    RespondBlockHeader_streamable ::
      Streamable Buffer (RespondBlockHeader.t HeaderBlock);
    RequestAdditions_streamable :: Streamable Buffer RequestAdditions.t;
    RejectAdditionsRequest_streamable :: Streamable Buffer RejectAdditionsRequest.t;
    RespondAdditions_streamable :: Streamable Buffer RespondAdditions.t }.

Section ProviderRest.
Context {Buffer HeaderBlock : Type}.
Context `{AddressUtil} `{HeaderBlockFields HeaderBlock}
        `{HeaderAndAdditionsSerializer Buffer HeaderBlock}
        `{ProviderUtil HeaderBlock}.

Local Open Scope closure_scope.

(** *** getBlockHeader *)

Definition getBlockHeader_consumeMessage (height : uint) (msg : Message Buffer)
    : Closure (Locals (RespondBlockHeader.t HeaderBlock)) bool :=
  returned <-
    (if type_eqb (type msg) reject_header_request then
       rPckt <- decode RejectHeaderRequest.t (data msg) ;;
       if RejectHeaderRequest.height rPckt =? height
       then
         l <- get ;;
         put {| respPckt := respPckt l; returnNull := true |} ;;
         ret true
       else ret false
     else ret false) ;;
  if returned then ret true else
  returned <-
    (if type_eqb (type msg) respond_block_header then
       rPckt <- decode (RespondBlockHeader.t HeaderBlock) (data msg) ;;
       if rewardChainBlock_height (RespondBlockHeader.headerBlock rPckt) =? height
       then
         l <- get ;;
         put {| respPckt := Some rPckt; returnNull := returnNull l |} ;;
         ret true
       else ret false
     else ret false) ;;
  if returned then ret true else
  ret false.

Definition getBlockHeader (height : uint) : Task Buffer (option ProviderBlockHeader) :=
  let pckt := {| RequestBlockHeader.height := height |} in
  let msgToSend := makeMsg request_block_header pckt in
  Await (Locals (RespondBlockHeader.t HeaderBlock))
    {| messageToSend := Some msgToSend;
       consumeMessage := getBlockHeader_consumeMessage height;
       deleteAfterFirstMessageConsumed := None;
       expectedMaxRensponseWait := None |}
    {| respPckt := None; returnNull := false |}
    (fun l =>
       if returnNull l then Ok None else
       match respPckt l with
       | Some r =>
           let headerBlock := RespondBlockHeader.headerBlock r in
           Ok (Some (serializerHeaderBlockToProviderBlockHeader headerBlock height))
       | None => Raise TypeError
       end).

(** *** getCoinAdditions *)

Definition getCoinAdditions_consumeMessage (height : uint) (headerHash : bytes)
    (msg : Message Buffer) : Closure (Locals RespondAdditions.t) bool :=
  returned <-
    (if type_eqb (type msg) reject_additions_request then
       rPckt <- decode RejectAdditionsRequest.t (data msg) ;;
       if (RejectAdditionsRequest.height rPckt =? height)
          && (RejectAdditionsRequest.headerHash rPckt =? headerHash)%string
       then
         l <- get ;;
         put {| respPckt := respPckt l; returnNull := true |} ;;
         ret true
       else ret false
     else ret false) ;;
  if returned then ret true else
  returned <-
    (if type_eqb (type msg) respond_additions then
       rPckt <- decode RespondAdditions.t (data msg) ;;
       if (RespondAdditions.headerHash rPckt =? headerHash)%string
          && (RespondAdditions.height rPckt =? height)
       then
         l <- get ;;
         put {| respPckt := Some rPckt; returnNull := returnNull l |} ;;
         ret true
       else ret false
     else ret false) ;;
  if returned then ret true else
  ret false.

Definition getCoinAdditions (height : uint) (headerHash : string)
    (puzzleHashes : option (list string)) : Task Buffer (option (list ProviderCoin)) :=
  let headerHash := validateHashString headerHash in
  if isEmpty headerHash then Return None else
  match (match puzzleHashes with
         | Some hashes => parseHashes hashes
         | None => Some []
         end) with
  | None => Return None
  | Some parsedPuzzleHashes =>
      let pckt :=
        {| RequestAdditions.height := height;
           RequestAdditions.headerHash := headerHash;
           RequestAdditions.puzzleHashes :=
             match puzzleHashes with Some _ => Some parsedPuzzleHashes | None => None end |} in
      let msgToSend := makeMsg request_additions pckt in
      Await (Locals RespondAdditions.t)
        {| messageToSend := Some msgToSend;
           consumeMessage := getCoinAdditions_consumeMessage height headerHash;
           deleteAfterFirstMessageConsumed := None;
           expectedMaxRensponseWait := None |}
        {| respPckt := None; returnNull := false |}
        (fun l =>
           if returnNull l then Ok None else
           match respPckt l with
           | Some r =>
               Ok (Some (flat_map
                           (fun thing : bytes * list Coin.t =>
                              let coinArr := snd thing in
                              pushEach (fun _ c => serializerCoinToProviderCoin c) 0 coinArr)
                           (RespondAdditions.coins r)))
           | None => Raise TypeError
           end)
  end.

(** A [reject_header_request] for this height. *)
Definition rejectsHeaderRequest (height : uint) (msg : Message Buffer) : Prop :=
  type msg = reject_header_request /\
  exists rPckt : RejectHeaderRequest.t,
    deserialize (data msg) = Some rPckt /\
    RejectHeaderRequest.height rPckt = height.

(** A [respond_block_header] whose reward chain block is at this height. *)
Definition respondsBlockHeader (height : uint) (msg : Message Buffer) : Prop :=
  type msg = respond_block_header /\
  exists rPckt : RespondBlockHeader.t HeaderBlock,
    deserialize (data msg) = Some rPckt /\
    rewardChainBlock_height (RespondBlockHeader.headerBlock rPckt) = height.

(** A [reject_additions_request] for this height and header hash. *)
Definition rejectsAdditions (height : uint) (headerHash : bytes)
    (msg : Message Buffer) : Prop :=
  type msg = reject_additions_request /\
  exists rPckt : RejectAdditionsRequest.t,
    deserialize (data msg) = Some rPckt /\
    RejectAdditionsRequest.height rPckt = height /\
    RejectAdditionsRequest.headerHash rPckt = headerHash.

(** A [respond_additions] for this height and header hash. *)
Definition respondsAdditions (height : uint) (headerHash : bytes)
    (msg : Message Buffer) : Prop :=
  type msg = respond_additions /\
  exists rPckt : RespondAdditions.t,
    deserialize (data msg) = Some rPckt /\
    RespondAdditions.headerHash rPckt = headerHash /\
    RespondAdditions.height rPckt = height.
End ProviderRest.

(** More answers, for the methods of the first part. *)
Section MoreAnswers.
Context {Buffer HeaderBlock : Type}.
Context `{CoinUtil} `{Serializer Buffer HeaderBlock}.

(** A [reject_removals_request] for this height and header hash. *)
Definition rejectsRemovals (height : uint) (headerHash : bytes)
    (msg : Message Buffer) : Prop :=
  type msg = reject_removals_request /\
  exists rPckt : RejectRemovalsRequest.t,
    deserialize (data msg) = Some rPckt /\
    RejectRemovalsRequest.height rPckt = height /\
    RejectRemovalsRequest.headerHash rPckt = headerHash.

(** A [respond_removals] for this height and header hash. *)
Definition respondsRemovals (height : uint) (headerHash : bytes)
    (msg : Message Buffer) : Prop :=
  type msg = respond_removals /\
  exists rPckt : RespondRemovals.t,
    deserialize (data msg) = Some rPckt /\
    RespondRemovals.headerHash rPckt = headerHash /\
    RespondRemovals.height rPckt = height.

(** A [new_peak_wallet] that decodes to a height [toNumber] can hold. *)
Definition announcesPeak (msg : Message Buffer) : Prop :=
  type msg = new_peak_wallet /\
  exists pckt : NewPeakWallet.t,
    deserialize (data msg) = Some pckt /\
    Z.abs (NewPeakWallet.height pckt) <= MAX_SAFE.

(** A [respond_to_coin_update] whose [coinIds] contains [coinId]. *)
Definition answersCoinUpdate (coinId : bytes) (msg : Message Buffer) : Prop :=
  type msg = respond_to_coin_update /\
  exists rPckt : RespondToCoinUpdates.t,
    deserialize (data msg) = Some rPckt /\
    In coinId (RespondToCoinUpdates.coinIds rPckt).

(** The callback that appends each list it is called with to a log. *)
Definition logCall (coins : list CoinState.t) (calls : list (list CoinState.t))
    : list (list CoinState.t) :=
  (calls ++ [coins])%list.
End MoreAnswers.

(** Collaborators for [getBlockHeader] and [getCoinAdditions]: header
    blocks that carry their height, and a transparent wire format for the
    six packets. *)
Module SampleRest.

Record HeaderBlock : Type := { rewardHeight : uint; hash : bytes }.

Inductive Wire : Type :=
| WRequestBlockHeader (p : RequestBlockHeader.t)
| WRejectHeaderRequest (p : RejectHeaderRequest.t)
| WRespondBlockHeader (p : RespondBlockHeader.t HeaderBlock)
| WRequestAdditions (p : RequestAdditions.t)
| WRejectAdditionsRequest (p : RejectAdditionsRequest.t)
| WRespondAdditions (p : RespondAdditions.t)
| WGarbage.

#[export] Instance headerBlockFields : HeaderBlockFields HeaderBlock :=
  {| rewardChainBlock_height := rewardHeight |}.

#[export] Instance serializer : HeaderAndAdditionsSerializer Wire HeaderBlock :=
  {| RequestBlockHeader_streamable :=
       {| serialize := WRequestBlockHeader;
          deserialize := fun w => match w with WRequestBlockHeader p => Some p | _ => None end |};
     RejectHeaderRequest_streamable :=
       {| serialize := WRejectHeaderRequest;
          deserialize := fun w => match w with WRejectHeaderRequest p => Some p | _ => None end |};
     RespondBlockHeader_streamable :=
       {| serialize := WRespondBlockHeader;
          deserialize := fun w => match w with WRespondBlockHeader p => Some p | _ => None end |};
     RequestAdditions_streamable :=
       {| serialize := WRequestAdditions;
          deserialize := fun w => match w with WRequestAdditions p => Some p | _ => None end |};
     RejectAdditionsRequest_streamable :=
       {| serialize := WRejectAdditionsRequest;
          deserialize := fun w => match w with WRejectAdditionsRequest p => Some p | _ => None end |};
     RespondAdditions_streamable :=
       {| serialize := WRespondAdditions;
          deserialize := fun w => match w with WRespondAdditions p => Some p | _ => None end |} |}.

#[export] Instance providerUtil : ProviderUtil HeaderBlock :=
  {| ProviderCoin := Coin.t;
     ProviderCoinState := CoinState.t;
     ProviderBlockHeader := Sample.BlockHeader;
     ProviderPuzzleSolution := PuzzleSolutionResponse.t;
     serializerCoinToProviderCoin := fun c => c;
     serializerCoinStateToProviderCoinState := fun cs => cs;
     serializerHeaderBlockToProviderBlockHeader :=
       fun hb h => {| Sample.height := h; Sample.headerHash := hash hb |};
     serializerPuzzleSolutionResponseToProviderPuzzleSolution := fun r => r |}.

Definition mkCoin (parent : bytes) (amount : uint) : Coin.t :=
  {| Coin.parentCoinInfo := parent;
     Coin.puzzleHash := Sample.knownPuzzleHash;
     Coin.amount := amount |}.

Definition headerRespond (height : uint) : Message Wire :=
  {| type := respond_block_header;
     data := WRespondBlockHeader
               {| RespondBlockHeader.headerBlock :=
                    {| rewardHeight := height; hash := "ab" |} |} |}.

Definition headerReject (height : uint) : Message Wire :=
  {| type := reject_header_request;
     data := WRejectHeaderRequest {| RejectHeaderRequest.height := height |} |}.

Definition headerFrames : list (Message Wire) :=
  [headerReject 99; headerRespond 101; headerRespond 100; headerReject 100].

Definition additionsRespond (height : uint) : Message Wire :=
  {| type := respond_additions;
     data := WRespondAdditions
               {| RespondAdditions.height := height;
                  RespondAdditions.headerHash := Sample.otherPuzzleHash;
                  RespondAdditions.coins :=
                    [(Sample.knownPuzzleHash, [mkCoin Sample.someCoinId 1;
                                               mkCoin Sample.someCoinId 2]);
                     (Sample.otherPuzzleHash, []);
                     (Sample.someCoinId, [mkCoin Sample.otherPuzzleHash 3])] |} |}.

Definition additionsFrames : list (Message Wire) :=
  [additionsRespond 6; {| type := respond_additions; data := WGarbage |};
   additionsRespond 7].
End SampleRest.

(** Frames for the removals at height 7 of block [otherPuzzleHash]. *)
Definition sampleRemovalsRespond : Message Sample.Wire :=
  {| type := respond_removals;
     data := Sample.WRespondRemovals
               {| RespondRemovals.height := 7;
                  RespondRemovals.headerHash := Sample.otherPuzzleHash;
                  RespondRemovals.coins :=
                    [(Sample.someCoinId, Some (SampleRest.mkCoin Sample.someCoinId 5));
                     (Sample.knownPuzzleHash, None);
                     (Sample.otherPuzzleHash, Some (SampleRest.mkCoin Sample.someCoinId 6))] |} |}.

Definition sampleRemovalsFrames : list (Message Sample.Wire) :=
  [Sample.balanceUpdate; sampleRemovalsRespond].

Definition sampleCoinUpdate : Message Sample.Wire :=
  {| type := respond_to_coin_update;
     data := Sample.WRespondToCoinUpdates
               {| RespondToCoinUpdates.coinIds := [Sample.someCoinId];
                  RespondToCoinUpdates.minHeight := 0;
                  RespondToCoinUpdates.coinStates :=
                    [Sample.mkCoinState "" Sample.someCoinId 11 None;
                     Sample.mkCoinState Sample.someCoinId Sample.knownPuzzleHash 12 None] |} |}.

(** * Properties *)

(** ** Strings and loops *)

Lemma isEmpty_true (s : string) : isEmpty s = true <-> s = "".
Proof.
  unfold isEmpty. destruct s as [|c s]; simpl.
  - split; reflexivity.
  - split; discriminate.
Qed.

Lemma isEmpty_false (s : string) : isEmpty s = false <-> s <> "".
Proof.
  rewrite <- isEmpty_true. destruct (isEmpty s); split; congruence.
Qed.

Lemma includes_In (x : string) (arr : list string) :
  includes x arr = true <-> In x arr.
Proof.
  unfold includes. rewrite existsb_exists. split.
  - intros [y [Hy Heq]]. apply String.eqb_eq in Heq. now subst.
  - intros Hin. exists x. split; [assumption | apply String.eqb_refl].
Qed.

Lemma type_eqb_eq (a b : ProtocolMessageTypes) : type_eqb a b = true <-> a = b.
Proof.
  unfold type_eqb. destruct (ProtocolMessageTypes_eq_dec a b); split; congruence.
Qed.

Lemma type_eqb_neq (a b : ProtocolMessageTypes) : type_eqb a b = false <-> a <> b.
Proof.
  unfold type_eqb. destruct (ProtocolMessageTypes_eq_dec a b); split; congruence.
Qed.

Lemma type_eqb_spec (a b : ProtocolMessageTypes) : reflect (a = b) (type_eqb a b).
Proof.
  unfold type_eqb. destruct (ProtocolMessageTypes_eq_dec a b); constructor; assumption.
Qed.

Lemma pushEach_length {A B} (f : Z -> A -> B) (arr : list A) :
  forall i, length (pushEach f i arr) = length arr.
Proof.
  induction arr as [|x rest IH]; intros i; simpl; [reflexivity | now rewrite IH].
Qed.

Lemma pushEach_nth_error {A B} (f : Z -> A -> B) (arr : list A) :
  forall (n : nat) (i : Z),
    nth_error (pushEach f i arr) n =
    option_map (f (i + Z.of_nat n)) (nth_error arr n).
Proof.
  induction arr as [|x rest IH]; intros n i.
  - destruct n; reflexivity.
  - destruct n as [|n]; simpl.
    + now rewrite Z.add_0_r.
    + rewrite IH. replace (i + 1 + Z.of_nat n) with (i + Z.pos (Pos.of_succ_nat n)) by lia.
      reflexivity.
Qed.

Lemma pushEach_map {A B} (g : A -> B) (arr : list A) :
  forall i, pushEach (fun _ x => g x) i arr = map g arr.
Proof.
  induction arr as [|x rest IH]; intros i; simpl; [reflexivity | now rewrite IH].
Qed.

Lemma fold_left_add_sum {A} (w : A -> Z) (l : list A) :
  forall acc, fold_left (fun b x => b + w x) l acc = acc + fold_right Z.add 0 (map w l).
Proof.
  induction l as [|x rest IH]; intros acc; simpl.
  - lia.
  - rewrite IH. lia.
Qed.

Lemma filter_filter {A} (p q : A -> bool) (l : list A) :
  filter q (filter p l) = filter (fun x => p x && q x) l.
Proof.
  induction l as [|x rest IH]; simpl; [reflexivity |].
  destruct (p x); simpl; [destruct (q x) |]; now rewrite IH.
Qed.

(** ** One-shot dispatch *)

Section DispatchFacts.
Context {Buffer S : Type}.
Variable P : Message Buffer -> Prop.
Variable f : Filter Buffer S.
Hypothesis Hf : acceptsExactly P f.

Lemma offer_sound (frames : list (Message Buffer)) :
  forall s msg s',
    offer f s frames = Some (msg, s') ->
    firstAccepted P frames msg /\ consumeMessage f msg s = Ok (true, s').
Proof.
  induction frames as [|m rest IH]; intros s msg s' Hoffer; simpl in Hoffer.
  - discriminate.
  - pose proof (Hf m s) as Hm.
    destruct (consumeMessage f m s) as [[[|] s1]|e] eqn:Hc.
    + inversion Hoffer; subst. split; [|assumption].
      exists [], rest. repeat split; [assumption | intros ? []].
    + destruct Hm as [Hn ->].
      destruct (IH _ _ _ Hoffer) as [(pre & post & -> & HP & Hpre) Hcons].
      split; [|assumption].
      exists (m :: pre), post. repeat split; [assumption |].
      intros m' [<- | Hin]; [assumption | now apply Hpre].
    + destruct (IH _ _ _ Hoffer) as [(pre & post & -> & HP & Hpre) Hcons].
      split; [|assumption].
      exists (m :: pre), post. repeat split; [assumption |].
      intros m' [<- | Hin]; [assumption | now apply Hpre].
Qed.

Lemma offer_complete (frames : list (Message Buffer)) (s : S) (msg : Message Buffer) :
  firstAccepted P frames msg ->
  exists s', offer f s frames = Some (msg, s') /\ consumeMessage f msg s = Ok (true, s').
Proof.
  intros (pre & post & -> & HP & Hpre).
  induction pre as [|m pre IH]; simpl.
  - pose proof (Hf msg s) as Hm.
    destruct (consumeMessage f msg s) as [[[|] s1]|e].
    + now exists s1.
    + now destruct Hm.
    + contradiction.
  - pose proof (Hf m s) as Hm.
    assert (Hnm : ~ P m) by (apply Hpre; now left).
    destruct (consumeMessage f m s) as [[[|] s1]|e].
    + contradiction.
    + destruct Hm as [_ ->]. apply IH. intros m' Hin. apply Hpre. now right.
    + apply IH. intros m' Hin. apply Hpre. now right.
Qed.

Lemma offer_None (frames : list (Message Buffer)) (s : S) :
  offer f s frames = None <-> forall m, In m frames -> ~ P m.
Proof.
  induction frames as [|m rest IH]; simpl.
  - split; [intros _ ? [] | reflexivity].
  - pose proof (Hf m s) as Hm.
    destruct (consumeMessage f m s) as [[[|] s1]|e].
    + split; [discriminate |]. intros Hall. exfalso. apply (Hall m); auto.
    + destruct Hm as [Hn ->]. rewrite IH. split.
      * intros Hall m' [<- | Hin]; auto.
      * intros Hall m' Hin. apply Hall. now right.
    + rewrite IH. split.
      * intros Hall m' [<- | Hin]; auto.
      * intros Hall m' Hin. apply Hall. now right.
Qed.
End DispatchFacts.

(** ** The provider's closures *)

(** Runs a closure symbolically and splits on every test it makes. *)
Ltac run_closure :=
  cbv beta delta [bind ret get put throw decode liftOutcome call] in *;
  repeat match goal with
         | |- context [type_eqb ?a ?b] => destruct (type_eqb_spec a b); simpl
         | |- context [@deserialize ?B ?T ?I ?x] =>
             let E := fresh "Edata" in destruct (@deserialize B T I x) eqn:E; simpl
         | |- context [String.eqb ?a ?b] => destruct (String.eqb_spec a b); simpl
         | |- context [Z.eqb ?a ?b] => destruct (Z.eqb_spec a b); simpl
         end.

(** Closes one case of a closure's case lemma: a reject-style answer, a
    respond-style answer, or a frame that is turned down. *)
Ltac settle_cases :=
  try congruence;
  first
    [ left; split;
      [split; [assumption | eexists; repeat split; eassumption] | reflexivity]
    | right; left; eexists; split;
      [ split; [assumption | eexists; repeat split; eassumption]
      | split; [first [eassumption | reflexivity] | reflexivity] ]
    | right; right; split; [| split];
      [ intros [? (? & ? & ? & ?)]; congruence
      | intros [? (? & ? & ? & ?)]; congruence
      | first [left; reflexivity | right; eexists; reflexivity] ] ].

Section ProviderFacts.
Context {Buffer HeaderBlock : Type}.
Context `{AddressUtil} `{CoinUtil} `{Serializer Buffer HeaderBlock}
        `{ProviderUtil HeaderBlock}.

(** *** getPuzzleSolution *)

Lemma getPuzzleSolution_consumeMessage_cases (coinId : bytes) (height : uint)
    (msg : Message Buffer) (l : Locals PuzzleSolutionResponse.t) :
  (rejectsPuzzleSolution coinId height msg /\
   getPuzzleSolution_consumeMessage coinId height msg l =
     Ok (true, {| respPckt := respPckt l; returnNull := true |}))
  \/
  (exists rPckt : RespondPuzzleSolution.t,
     respondsPuzzleSolution coinId height msg /\
     deserialize (data msg) = Some rPckt /\
     getPuzzleSolution_consumeMessage coinId height msg l =
       Ok (true, {| respPckt := Some (RespondPuzzleSolution.response rPckt);
                    returnNull := returnNull l |}))
  \/
  (~ rejectsPuzzleSolution coinId height msg /\
   ~ respondsPuzzleSolution coinId height msg /\
   (getPuzzleSolution_consumeMessage coinId height msg l = Ok (false, l) \/
    exists e, getPuzzleSolution_consumeMessage coinId height msg l = Raise e)).
Proof.
  unfold getPuzzleSolution_consumeMessage. run_closure.
  all: unfold rejectsPuzzleSolution, respondsPuzzleSolution.
  all: settle_cases.
Qed.

Lemma getPuzzleSolution_filter_accepts (coinId : bytes) (height : uint)
    (msgToSend : option (Message Buffer)) (d : option bool) (w : option Z) :
  acceptsExactly
    (fun m => rejectsPuzzleSolution coinId height m \/
              respondsPuzzleSolution coinId height m)
    {| messageToSend := msgToSend;
       consumeMessage := getPuzzleSolution_consumeMessage coinId height;
       deleteAfterFirstMessageConsumed := d;
       expectedMaxRensponseWait := w |}.
Proof.
  intros msg l. simpl.
  destruct (getPuzzleSolution_consumeMessage_cases coinId height msg l)
    as [[Hrej ->] | [(r & Hresp & _ & ->) | (Hnrej & Hnresp & [-> | [e ->]])]].
  - now left.
  - now right.
  - split; [tauto | reflexivity].
  - tauto.
Qed.

(** C3: with a coin id that passes validation, the frame that completes
    [getPuzzleSolution] is exactly the first inbound frame that is a
    [reject_puzzle_solution] or a [respond_puzzle_solution] for the
    requested coin name and height, every other frame being left
    unconsumed; on the reject the call returns null, on the respond it
    returns the translated response. *)
Theorem getPuzzleSolution_answer (coinId : string) (height : uint)
    (frames : list (Message Buffer)) (msg : Message Buffer) :
  ~ failsValidation coinId ->
  (consumedFrame (getPuzzleSolution coinId height) frames = Some msg <->
   firstAccepted
     (fun m => rejectsPuzzleSolution (validateHashString coinId) height m \/
               respondsPuzzleSolution (validateHashString coinId) height m)
     frames msg) /\
  (consumedFrame (getPuzzleSolution coinId height) frames = Some msg ->
   (rejectsPuzzleSolution (validateHashString coinId) height msg ->
    complete (getPuzzleSolution coinId height) frames = Some (Ok None)) /\
   (forall rPckt : RespondPuzzleSolution.t,
      type msg = respond_puzzle_solution ->
      deserialize (data msg) = Some rPckt ->
      complete (getPuzzleSolution coinId height) frames =
        Some (Ok (Some (serializerPuzzleSolutionResponseToProviderPuzzleSolution
                          (RespondPuzzleSolution.response rPckt)))))).
Proof.
  intros Hvalid. apply isEmpty_false in Hvalid.
  unfold getPuzzleSolution. rewrite Hvalid. simpl.
  set (cid := validateHashString coinId).
  set (f := {| messageToSend := _ |}).
  set (l0 := {| respPckt := None; returnNull := false |}).
  assert (Hf : acceptsExactly
                 (fun m => rejectsPuzzleSolution cid height m \/
                           respondsPuzzleSolution cid height m) f)
    by apply getPuzzleSolution_filter_accepts.
  split.
  - split.
    + destruct (offer f l0 frames) as [[m l]|] eqn:Hoffer; [|discriminate].
      simpl. intros [= ->]. exact (proj1 (offer_sound _ f Hf frames _ _ _ Hoffer)).
    + intros Hfirst. destruct (offer_complete _ f Hf frames l0 msg Hfirst) as (l & -> & _).
      reflexivity.
  - destruct (offer f l0 frames) as [[m l]|] eqn:Hoffer; [|discriminate].
    simpl. intros [= ->].
    destruct (offer_sound _ f Hf frames _ _ _ Hoffer) as [_ Hcons]. simpl in Hcons.
    destruct (getPuzzleSolution_consumeMessage_cases cid height msg l0)
      as [[Hrej E] | [(r & Hresp & Hr & E) | (_ & _ & [E | [e E]])]];
      rewrite E in Hcons; inversion Hcons; subst l; simpl.
    + split; [reflexivity |].
      intros rPckt Hty _. destruct Hrej as [Hty' _]. congruence.
    + split.
      * intros [Hty' _]. destruct Hresp as [Hty _]. congruence.
      * intros rPckt _ Hr'. congruence.
Qed.

(** *** getBlocksHeaders *)

Lemma getBlocksHeaders_consumeMessage_cases (startHeight endHeight : uint)
    (msg : Message Buffer) (l : Locals (RespondHeaderBlocks.t HeaderBlock)) :
  (rejectsHeaderBlocks startHeight endHeight msg /\
   getBlocksHeaders_consumeMessage startHeight endHeight msg l =
     Ok (true, {| respPckt := respPckt l; returnNull := true |}))
  \/
  (exists rPckt : RespondHeaderBlocks.t HeaderBlock,
     respondsHeaderBlocks startHeight endHeight msg /\
     deserialize (data msg) = Some rPckt /\
     getBlocksHeaders_consumeMessage startHeight endHeight msg l =
       Ok (true, {| respPckt := Some rPckt; returnNull := returnNull l |}))
  \/
  (~ rejectsHeaderBlocks startHeight endHeight msg /\
   ~ respondsHeaderBlocks startHeight endHeight msg /\
   (getBlocksHeaders_consumeMessage startHeight endHeight msg l = Ok (false, l) \/
    exists e, getBlocksHeaders_consumeMessage startHeight endHeight msg l = Raise e)).
Proof.
  unfold getBlocksHeaders_consumeMessage. run_closure.
  all: unfold rejectsHeaderBlocks, respondsHeaderBlocks.
  all: settle_cases.
Qed.

Lemma getBlocksHeaders_filter_accepts (startHeight endHeight : uint)
    (msgToSend : option (Message Buffer)) (d : option bool) (w : option Z) :
  acceptsExactly
    (fun m => rejectsHeaderBlocks startHeight endHeight m \/
              respondsHeaderBlocks startHeight endHeight m)
    {| messageToSend := msgToSend;
       consumeMessage := getBlocksHeaders_consumeMessage startHeight endHeight;
       deleteAfterFirstMessageConsumed := d;
       expectedMaxRensponseWait := w |}.
Proof.
  intros msg l. simpl.
  destruct (getBlocksHeaders_consumeMessage_cases startHeight endHeight msg l)
    as [[Hrej ->] | [(r & Hresp & _ & ->) | (Hnrej & Hnresp & [-> | [e ->]])]].
  - now left.
  - now right.
  - split; [tauto | reflexivity].
  - tauto.
Qed.

(** C5: the frame that completes [getBlocksHeaders] is exactly the first
    inbound [reject_header_blocks] or [respond_header_blocks] whose start
    and end heights both equal the request's.  On the reject the call
    returns null.  On the respond it returns one header per header block
    of the response, the i-th being the translation of the i-th block at
    height [startHeight + i]; the translation helper is taken to store
    the height it is given. *)
Theorem getBlocksHeaders_answer (startHeight endHeight : uint)
    (frames : list (Message Buffer)) (msg : Message Buffer)
    (heightOf : ProviderBlockHeader -> BigNumber) :
  (forall headerBlock h,
      heightOf (serializerHeaderBlockToProviderBlockHeader headerBlock h) = h) ->
  (consumedFrame (getBlocksHeaders startHeight endHeight) frames = Some msg <->
   firstAccepted
     (fun m => rejectsHeaderBlocks startHeight endHeight m \/
               respondsHeaderBlocks startHeight endHeight m)
     frames msg) /\
  (consumedFrame (getBlocksHeaders startHeight endHeight) frames = Some msg ->
   (type msg = reject_header_blocks ->
    complete (getBlocksHeaders startHeight endHeight) frames = Some (Ok None)) /\
   (forall rPckt : RespondHeaderBlocks.t HeaderBlock,
      type msg = respond_header_blocks ->
      deserialize (data msg) = Some rPckt ->
      exists headers,
        complete (getBlocksHeaders startHeight endHeight) frames =
          Some (Ok (Some headers)) /\
        length headers = length (RespondHeaderBlocks.headerBlocks rPckt) /\
        forall (i : nat) headerBlock,
          nth_error (RespondHeaderBlocks.headerBlocks rPckt) i = Some headerBlock ->
          exists header,
            nth_error headers i = Some header /\
            header = serializerHeaderBlockToProviderBlockHeader headerBlock
                       (startHeight + Z.of_nat i) /\
            heightOf header = startHeight + Z.of_nat i)).
Proof.
  intros Hheight. unfold getBlocksHeaders.
  set (f := {| messageToSend := _ |}).
  set (l0 := {| respPckt := None; returnNull := false |}).
  assert (Hf : acceptsExactly
                 (fun m => rejectsHeaderBlocks startHeight endHeight m \/
                           respondsHeaderBlocks startHeight endHeight m) f)
    by apply getBlocksHeaders_filter_accepts.
  simpl. split.
  - split.
    + destruct (offer f l0 frames) as [[m l]|] eqn:Hoffer; [|discriminate].
      simpl. intros [= ->]. exact (proj1 (offer_sound _ f Hf frames _ _ _ Hoffer)).
    + intros Hfirst. destruct (offer_complete _ f Hf frames l0 msg Hfirst) as (l & -> & _).
      reflexivity.
  - destruct (offer f l0 frames) as [[m l]|] eqn:Hoffer; [|discriminate].
    simpl. intros [= ->].
    destruct (offer_sound _ f Hf frames _ _ _ Hoffer) as [_ Hcons]. simpl in Hcons.
    destruct (getBlocksHeaders_consumeMessage_cases startHeight endHeight msg l0)
      as [[Hrej E] | [(r & Hresp & Hr & E) | (_ & _ & [E | [e E]])]];
      rewrite E in Hcons; inversion Hcons; subst l; simpl.
    + split; [reflexivity |].
      intros rPckt Hty _. destruct Hrej as [Hty' _]. congruence.
    + split.
      * intros Hty'. destruct Hresp as [Hty _]. congruence.
      * intros rPckt _ Hr'. assert (r = rPckt) by congruence. subst r.
        destruct Hresp as (_ & r' & Hr'' & Hstart & _).
        assert (r' = rPckt) by congruence. subst r'.
        eexists. split; [reflexivity |]. split; [apply pushEach_length |].
        intros i hb Hi. eexists. rewrite pushEach_nth_error, Hi. simpl.
        rewrite Hstart. split; [reflexivity |]. split; [reflexivity | apply Hheight].
Qed.

(** *** getCoinChildren *)

Lemma getCoinChildren_consumeMessage_cases (coinId : bytes) (msg : Message Buffer)
    (respPckt : option RespondChildren.t) :
  (exists rPckt : RespondChildren.t,
     respondsChildren coinId msg /\
     deserialize (data msg) = Some rPckt /\
     getCoinChildren_consumeMessage coinId msg respPckt = Ok (true, Some rPckt))
  \/
  (~ respondsChildren coinId msg /\
   (getCoinChildren_consumeMessage coinId msg respPckt = Ok (false, respPckt) \/
    exists e, getCoinChildren_consumeMessage coinId msg respPckt = Raise e)).
Proof.
  unfold getCoinChildren_consumeMessage, respondsChildren.
  cbv beta delta [bind ret put decode].
  destruct (type_eqb_spec (type msg) respond_children) as [Hty | Hty]; simpl.
  - destruct (deserialize (data msg)) as [r|] eqn:Hr.
    + destruct (RespondChildren.coinStates r) as [|first rest] eqn:Hcs.
      * left. exists r. repeat split; eauto.
      * destruct (String.eqb_spec (Coin.parentCoinInfo (CoinState.coin first)) coinId)
          as [Hp | Hp].
        -- left. exists r. repeat split; eauto.
           exists r. split; [reflexivity |]. right. eauto.
        -- right. split; [| now left].
           intros (_ & r' & [= <-] & [Hnil | (first' & rest' & Hcs' & Hp')]);
             congruence.
    + right. split; [| right; eauto].
      intros (_ & r' & Hr' & _). discriminate.
  - right. split; [| now left]. intros [Hty' _]. contradiction.
Qed.

Lemma getCoinChildren_filter_accepts (coinId : bytes)
    (msgToSend : option (Message Buffer)) (d : option bool) (w : option Z) :
  acceptsExactly (respondsChildren coinId)
    {| messageToSend := msgToSend;
       consumeMessage := getCoinChildren_consumeMessage coinId;
       deleteAfterFirstMessageConsumed := d;
       expectedMaxRensponseWait := w |}.
Proof.
  intros msg l. simpl.
  destruct (getCoinChildren_consumeMessage_cases coinId msg l)
    as [(r & Hresp & _ & ->) | (Hn & [-> | [e ->]])]; auto.
Qed.

(** C6: with a coin id that passes validation, the frame that completes
    [getCoinChildren] is exactly the first inbound [respond_children]
    whose coin-state list is empty or whose first entry has the coin id
    as parent; the call returns the translation of every coin state of
    that frame, so an empty list gives [[]] and not null. *)
Theorem getCoinChildren_answer (coinId : string)
    (frames : list (Message Buffer)) (msg : Message Buffer) :
  ~ failsValidation coinId ->
  (consumedFrame (getCoinChildren coinId) frames = Some msg <->
   firstAccepted (respondsChildren (validateHashString coinId)) frames msg) /\
  (consumedFrame (getCoinChildren coinId) frames = Some msg ->
   exists rPckt : RespondChildren.t,
     deserialize (data msg) = Some rPckt /\
     complete (getCoinChildren coinId) frames =
       Some (Ok (map serializerCoinStateToProviderCoinState
                     (RespondChildren.coinStates rPckt))) /\
     (RespondChildren.coinStates rPckt = [] ->
      complete (getCoinChildren coinId) frames = Some (Ok []))).
Proof.
  intros Hvalid. apply isEmpty_false in Hvalid.
  unfold getCoinChildren. rewrite Hvalid. simpl.
  set (cid := validateHashString coinId).
  set (f := {| messageToSend := _ |}).
  assert (Hf : acceptsExactly (respondsChildren cid) f)
    by apply getCoinChildren_filter_accepts.
  split.
  - split.
    + destruct (offer f None frames) as [[m l]|] eqn:Hoffer; [|discriminate].
      simpl. intros [= ->]. exact (proj1 (offer_sound _ f Hf frames _ _ _ Hoffer)).
    + intros Hfirst.
      destruct (offer_complete _ f Hf frames None msg Hfirst) as (l & -> & _).
      reflexivity.
  - destruct (offer f None frames) as [[m l]|] eqn:Hoffer; [|discriminate].
    simpl. intros [= ->].
    destruct (offer_sound _ f Hf frames _ _ _ Hoffer) as [_ Hcons]. simpl in Hcons.
    destruct (getCoinChildren_consumeMessage_cases cid msg None)
      as [(r & Hresp & Hr & E) | (_ & [E | [e E]])];
      rewrite E in Hcons; inversion Hcons; subst l; simpl.
    exists r. split; [assumption |]. rewrite pushEach_map.
    split; [reflexivity |]. intros ->. reflexivity.
Qed.

(** *** getBalance *)

Lemma getBalance_consumeMessage_cases (puzHash : bytes) (msg : Message Buffer)
    (coinStates : list CoinState.t) :
  (exists rPckt : RespondToPhUpdates.t,
     answersPhUpdate puzHash msg /\
     deserialize (data msg) = Some rPckt /\
     getBalance_consumeMessage puzHash msg coinStates =
       Ok (true,
           filter (fun cs => Coin.puzzleHash (CoinState.coin cs) =? puzHash)%string
                  (RespondToPhUpdates.coinStates rPckt)))
  \/
  (~ answersPhUpdate puzHash msg /\
   (getBalance_consumeMessage puzHash msg coinStates = Ok (false, coinStates) \/
    exists e, getBalance_consumeMessage puzHash msg coinStates = Raise e)).
Proof.
  unfold getBalance_consumeMessage, answersPhUpdate.
  cbv beta delta [bind ret put decode].
  destruct (type_eqb_spec (type msg) respond_to_ph_update) as [Hty | Hty]; simpl.
  - destruct (deserialize (data msg)) as [r|] eqn:Hr.
    + destruct (includes puzHash (RespondToPhUpdates.puzzleHashes r)) eqn:Hin; simpl.
      * left. exists r. apply includes_In in Hin. repeat split; eauto.
      * right. split; [| now left].
        intros (_ & r' & [= <-] & Hin'). apply includes_In in Hin'. congruence.
    + right. split; [| right; eauto].
      intros (_ & r' & Hr' & _). discriminate.
  - right. split; [| now left]. intros [Hty' _]. contradiction.
Qed.

Lemma getBalance_filter_accepts (puzHash : bytes)
    (msgToSend : option (Message Buffer)) (d : option bool) (w : option Z) :
  acceptsExactly (answersPhUpdate puzHash)
    {| messageToSend := msgToSend;
       consumeMessage := getBalance_consumeMessage puzHash;
       deleteAfterFirstMessageConsumed := d;
       expectedMaxRensponseWait := w |}.
Proof.
  intros msg l. simpl.
  destruct (getBalance_consumeMessage_cases puzHash msg l)
    as [(r & Hresp & _ & ->) | (Hn & [-> | [e ->]])]; auto.
Qed.

(** C2: when [getBalance] goes on with puzzle hash [puzHash], the frame
    that completes it is the first inbound [respond_to_ph_update] whose
    [puzzleHashes] contains [puzHash], and the value returned is the
    unbounded-integer sum of [coin.amount] over exactly the coin states
    of that frame with [coin.puzzleHash = puzHash] and a null
    [spentHeight]. *)
Theorem getBalance_sums_unspent (address puzzleHash : option string)
    (minHeight : option Z) (puzHash : bytes)
    (frames : list (Message Buffer)) (msg : Message Buffer) :
  getBalance_puzHash address puzzleHash = Some puzHash ->
  (consumedFrame (getBalance address puzzleHash minHeight) frames = Some msg <->
   firstAccepted (answersPhUpdate puzHash) frames msg) /\
  (consumedFrame (getBalance address puzzleHash minHeight) frames = Some msg ->
   exists rPckt : RespondToPhUpdates.t,
     deserialize (data msg) = Some rPckt /\
     complete (getBalance address puzzleHash minHeight) frames =
       Some (Ok (Some
         (fold_right Z.add 0
            (map (fun cs => Coin.amount (CoinState.coin cs))
                 (filter
                    (fun cs =>
                       (Coin.puzzleHash (CoinState.coin cs) =? puzHash)%string
                       && isNull (CoinState.spentHeight cs))
                    (RespondToPhUpdates.coinStates rPckt))))))).
Proof.
  intros Hph. unfold getBalance. rewrite Hph. simpl.
  set (f := {| messageToSend := _ |}).
  assert (Hf : acceptsExactly (answersPhUpdate puzHash) f)
    by apply getBalance_filter_accepts.
  split.
  - split.
    + destruct (offer f [] frames) as [[m l]|] eqn:Hoffer; [|discriminate].
      simpl. intros [= ->]. exact (proj1 (offer_sound _ f Hf frames _ _ _ Hoffer)).
    + intros Hfirst.
      destruct (offer_complete _ f Hf frames [] msg Hfirst) as (l & -> & _).
      reflexivity.
  - destruct (offer f [] frames) as [[m l]|] eqn:Hoffer; [|discriminate].
    simpl. intros [= ->].
    destruct (offer_sound _ f Hf frames _ _ _ Hoffer) as [_ Hcons]. simpl in Hcons.
    destruct (getBalance_consumeMessage_cases puzHash msg [])
      as [(r & Hresp & Hr & E) | (_ & [E | [e E]])];
      rewrite E in Hcons; inversion Hcons; subst l.
    exists r. split; [assumption |].
    rewrite filter_filter, fold_left_add_sum. reflexivity.
Qed.

(** Where [getBalance] does return null at once. *)
Lemma getBalance_null_cases (address puzzleHash : option string) (minHeight : option Z) :
  (exists addr, address = Some addr /\ prefix ADDRESS_PREFIX addr = true /\
                failsDecoding addr) \/
  (address = None /\ puzzleHash = None) ->
  getBalance address puzzleHash minHeight = Return None.
Proof.
  unfold getBalance, getBalance_puzHash, failsDecoding.
  intros [(addr & -> & -> & ->) | [-> ->]]; reflexivity.
Qed.

(** With no address, a puzzle hash that fails validation does not stop
    [getBalance]: the register frame goes out with the empty hash. *)
Lemma getBalance_invalid_puzzleHash (puzzleHash : string) (minHeight : option Z) :
  failsValidation puzzleHash ->
  frameSent (getBalance None (Some puzzleHash) minHeight) =
    Some (makeMsg register_interest_in_puzzle_hash
            {| RegisterForPhUpdates.puzzleHashes := [""];
               RegisterForPhUpdates.minHeight :=
                 match minHeight with Some h => h | None => 0 end |}).
Proof.
  unfold failsValidation, getBalance, getBalance_puzHash. intros ->. reflexivity.
Qed.

(** *** getBlockNumber and the peak watcher *)

Lemma connect_consumeMessage_cases (msg : Message Buffer) (this : LeafletProvider) :
  (exists pckt : NewPeakWallet.t,
     type msg = new_peak_wallet /\
     deserialize (data msg) = Some pckt /\
     connect_consumeMessage msg this =
       Ok (true, {| messageManager := messageManager this;
                    blockNumber := Some (NewPeakWallet.height pckt);
                    networkId := networkId this |}))
  \/
  connect_consumeMessage msg this = Ok (false, this)
  \/
  (exists e, connect_consumeMessage msg this = Raise e).
Proof.
  unfold connect_consumeMessage, toNumber.
  cbv beta delta [bind ret get put decode liftOutcome].
  destruct (type_eqb_spec (type msg) new_peak_wallet) as [Hty | Hty]; simpl.
  - destruct (deserialize (data msg)) as [pckt|] eqn:Hp.
    + destruct (Z.abs (NewPeakWallet.height pckt) <=? MAX_SAFE).
      * left. exists pckt. auto.
      * right. right. eauto.
    + right. right. eauto.
  - right. now left.
Qed.

Lemma connect_feed (frames : list (Message Buffer)) :
  forall this0 : LeafletProvider,
    (consumedFrames connect this0 frames = [] ->
     blockNumber (feed connect this0 frames) = blockNumber this0) /\
    (forall earlier msg,
       consumedFrames connect this0 frames = (earlier ++ [msg])%list ->
       exists pckt : NewPeakWallet.t,
         type msg = new_peak_wallet /\
         deserialize (data msg) = Some pckt /\
         blockNumber (feed connect this0 frames) = Some (NewPeakWallet.height pckt)).
Proof.
  induction frames as [|m rest IH]; intros this0; simpl.
  - split; [reflexivity |]. intros [|? ?] ? ?; discriminate.
  - destruct (connect_consumeMessage_cases m this0)
      as [(pckt & Hty & Hp & E) | [E | [e E]]]; rewrite E.
    + set (this1 := {| messageManager := _ |}).
      destruct (IH this1) as [IHnone IHsome].
      split; [discriminate |].
      intros earlier msg Heq.
      destruct earlier as [|m' earlier]; simpl in Heq.
      * injection Heq as -> Hnil. exists pckt. rewrite (IHnone Hnil). auto.
      * injection Heq as -> Hrest. exact (IHsome _ _ Hrest).
    + apply IH.
    + apply IH.
Qed.

(** C7: [getBlockNumber] registers no filter and sends no frame; on a
    provider that was constructed, connected and has since been offered
    [frames], it returns null when the peak watcher consumed none of
    them, and otherwise the height carried by the last [new_peak_wallet]
    frame the watcher consumed. *)
Theorem getBlockNumber_cached_peak (host apiKey : string) (port : option Z)
    (networkId : option string) (frames : list (Message Buffer)) :
  frameSent
    (getBlockNumber (Buffer := Buffer) (feed connect (new_LeafletProvider host apiKey port networkId) frames))
    = None /\
  registersFilter
    (getBlockNumber (Buffer := Buffer) (feed connect (new_LeafletProvider host apiKey port networkId) frames))
    = false /\
  (consumedFrames connect (new_LeafletProvider host apiKey port networkId) frames = [] ->
   getBlockNumber (Buffer := Buffer) (feed connect (new_LeafletProvider host apiKey port networkId) frames)
     = Return None) /\
  (forall earlier msg,
     consumedFrames connect (new_LeafletProvider host apiKey port networkId) frames
       = (earlier ++ [msg])%list ->
     exists pckt : NewPeakWallet.t,
       type msg = new_peak_wallet /\
       deserialize (data msg) = Some pckt /\
       getBlockNumber (Buffer := Buffer)
         (feed connect (new_LeafletProvider host apiKey port networkId) frames)
         = Return (Some (NewPeakWallet.height pckt))).
Proof.
  destruct (connect_feed frames (new_LeafletProvider host apiKey port networkId))
    as [Hnone Hsome].
  unfold getBlockNumber. simpl. repeat split.
  - intros Hnil. now rewrite (Hnone Hnil).
  - intros earlier msg Heq. destruct (Hsome _ _ Heq) as (pckt & Hty & Hp & ->).
    exists pckt. auto.
Qed.

(** *** Subscriptions *)

(** C8: when the puzzle hash (respectively the coin id) fails validation,
    [subscribeToPuzzleHashUpdates] (respectively [subscribeToCoinUpdates])
    returns without calling [registerFilter]: no frame is sent, no filter
    is installed, and whatever frames arrive afterwards the state [u]
    written by the callback stays as it was, that is, the callback is
    never run. *)
Theorem subscriptions_ignore_invalid_hash {U : Type} (hash : string)
    (callback : list CoinState.t -> U -> U) (minHeight : option Z)
    (u : U) (frames : list (Message Buffer)) :
  failsValidation hash ->
  (subscribeToPuzzleHashUpdates hash callback minHeight = None /\
   frameSentBy (subscribeToPuzzleHashUpdates hash callback minHeight) = None /\
   deliver (subscribeToPuzzleHashUpdates hash callback minHeight) u frames = u) /\
  (subscribeToCoinUpdates hash callback minHeight = None /\
   frameSentBy (subscribeToCoinUpdates hash callback minHeight) = None /\
   deliver (subscribeToCoinUpdates hash callback minHeight) u frames = u).
Proof.
  unfold failsValidation, subscribeToPuzzleHashUpdates, subscribeToCoinUpdates.
  intros ->. simpl. repeat split.
Qed.

(** *** getCoinChildren on invalid input *)

(** C10: when the coin id fails validation, [getCoinChildren] returns the
    empty list at once, with no filter registered and no frame sent; the
    caller sees [[]], the same value a valid coin without children
    gives. *)
Theorem getCoinChildren_invalid_coinId (coinId : string)
    (frames : list (Message Buffer)) :
  failsValidation coinId ->
  getCoinChildren coinId = Return [] /\
  frameSent (getCoinChildren coinId) = None /\
  registersFilter (getCoinChildren coinId) = false /\
  complete (getCoinChildren coinId) frames = Some (Ok []).
Proof.
  unfold failsValidation, getCoinChildren. intros ->. simpl. repeat split.
Qed.

(** *** getCoinRemovals *)

Lemma parseHashes_None (hashes : list string) :
  parseHashes hashes = None <-> exists h, In h hashes /\ failsValidation h.
Proof.
  unfold failsValidation. induction hashes as [|h rest IH]; simpl.
  - split; [discriminate | intros (? & [] & _)].
  - destruct (isEmpty (validateHashString h)) eqn:Hh.
    + apply isEmpty_true in Hh. split; [eauto | reflexivity].
    + apply isEmpty_false in Hh.
      destruct (parseHashes rest) as [parsed|].
      * split; [discriminate |].
        intros (h' & [<- | Hin] & Hf); [contradiction |].
        assert (Hnone : Some parsed = None) by (apply IH; eauto).
        discriminate.
      * split; [| reflexivity]. intros _.
        destruct (proj1 IH eq_refl) as (h' & Hin & Hf). eauto.
Qed.

Lemma parseHashes_Some (hashes : list string) :
  forall parsed, parseHashes hashes = Some parsed ->
                 parsed = map validateHashString hashes.
Proof.
  induction hashes as [|h rest IH]; simpl; intros parsed.
  - now intros [= <-].
  - destruct (isEmpty (validateHashString h)); [discriminate |].
    destruct (parseHashes rest) as [parsedRest|]; [| discriminate].
    intros [= <-]. now rewrite (IH parsedRest eq_refl).
Qed.

(** C4: [getCoinRemovals] returns null without sending a frame when the
    header hash fails validation or when some element of the given coin
    ids fails validation; in every other case it sends a
    [request_removals] frame, carrying the height, the validated header
    hash and the validated coin ids. *)
Theorem getCoinRemovals_validation (height : uint) (headerHash : string)
    (coinIds : option (list string)) :
  (failsValidation headerHash \/
   (exists ids c, coinIds = Some ids /\ In c ids /\ failsValidation c) ->
   getCoinRemovals height headerHash coinIds = Return None /\
   frameSent (getCoinRemovals height headerHash coinIds) = None) /\
  (~ (failsValidation headerHash \/
      (exists ids c, coinIds = Some ids /\ In c ids /\ failsValidation c)) ->
   frameSent (getCoinRemovals height headerHash coinIds) =
     Some (makeMsg request_removals
             {| RequestRemovals.height := height;
                RequestRemovals.headerHash := validateHashString headerHash;
                RequestRemovals.coinNames :=
                  option_map (map validateHashString) coinIds |})).
Proof.
  unfold getCoinRemovals.
  destruct (isEmpty (validateHashString headerHash)) eqn:Hh.
  - apply isEmpty_true in Hh. split; [now intros _ |].
    intros Hn. exfalso. apply Hn. now left.
  - apply isEmpty_false in Hh.
    destruct coinIds as [ids|]; simpl.
    + destruct (parseHashes ids) as [parsed|] eqn:Hparse.
      * split.
        -- intros [Hf | (ids' & c & [= <-] & Hin & Hf)]; [contradiction |].
           assert (Hnone : parseHashes ids = None) by (apply parseHashes_None; eauto).
           congruence.
        -- intros _. simpl. now rewrite (parseHashes_Some _ _ Hparse).
      * split; [now intros _ |].
        intros Hn. exfalso. apply Hn. right.
        destruct (proj1 (parseHashes_None ids) Hparse) as (c & Hin & Hf).
        exists ids, c. auto.
    + split.
      * intros [Hf | (ids' & c & Hids & _)]; [contradiction | discriminate].
      * intros _. reflexivity.
Qed.

(** *** Unsupported methods *)

(** C9: [getAddress], [transfer], [transferCAT], [acceptOffer] and
    [subscribeToAddressChanges] throw the not-implemented error for every
    argument and every provider state, connected or not. *)
Theorem unsupported_methods_throw {A1 A2 A3 A4 : Type} (this : LeafletProvider)
    (a1 : A1) (a2 : A2) (a3 : A3) (a4 : A4) :
  getAddress (Buffer := Buffer) this = Raise notImplemented /\
  transfer (Buffer := Buffer) this a1 = Raise notImplemented /\
  transferCAT (Buffer := Buffer) this a2 = Raise notImplemented /\
  acceptOffer (Buffer := Buffer) this a3 = Raise notImplemented /\
  subscribeToAddressChanges this a4 = Raise notImplemented /\
  notImplemented = Error "LeafletProvider does not implement this method.".
Proof. repeat split. Qed.
End ProviderFacts.

(** ** The provider on the sample collaborators *)

#[local] Existing Instance Sample.addressUtil.
#[local] Existing Instance Sample.coinUtil.
#[local] Existing Instance Sample.serializer.
#[local] Existing Instance Sample.providerUtil.

Example getBalance_two_unspent_coins :
  complete (getBalance (Some Sample.knownAddress) None None) Sample.balanceFrames
  = Some (Ok (Some 350)).
Proof. reflexivity. Qed.

Example getBalance_unknown_address :
  getBalance (Buffer := Sample.Wire) (Some "xch1notanaddress") (Some Sample.knownPuzzleHash) None
  = Return None.
Proof. reflexivity. Qed.

Example getPuzzleSolution_rejected :
  complete (getPuzzleSolution Sample.someCoinId 5) Sample.rejectionFrames
  = Some (Ok None).
Proof. reflexivity. Qed.

Example getBlocksHeaders_heights :
  complete (getBlocksHeaders 100 102) Sample.headersFrames
  = Some (Ok (Some [ {| Sample.height := 100; Sample.headerHash := "aa" |};
                     {| Sample.height := 101; Sample.headerHash := "bb" |};
                     {| Sample.height := 102; Sample.headerHash := "cc" |} ])).
Proof. reflexivity. Qed.

Example getCoinRemovals_invalid_coin_id :
  getCoinRemovals (Buffer := Sample.Wire) 7 Sample.knownPuzzleHash
                  (Some [Sample.someCoinId; "zz"])
  = Return None.
Proof. reflexivity. Qed.

Example subscription_delivers_matching_coins :
  deliver (subscribeToPuzzleHashUpdates Sample.knownPuzzleHash Sample.record None)
          [] Sample.balanceFrames
  = [[Sample.mkCoinState Sample.someCoinId Sample.knownPuzzleHash 100 None;
      Sample.mkCoinState Sample.someCoinId Sample.knownPuzzleHash 250 None;
      Sample.mkCoinState Sample.someCoinId Sample.knownPuzzleHash 40 (Some 42)]].
Proof. reflexivity. Qed.

Example peak_out_of_range_is_not_consumed :
  consumedFrames connect (new_LeafletProvider "node" "key" None None) Sample.peakFrames
  = [Sample.peak 10; Sample.peak 12].
Proof. reflexivity. Qed.

(** C1: the claim fails on a puzzle hash that does not validate.  With no
    address and the puzzle hash "zz", which the validator turns down,
    [getBalance] does not return null: it registers its filter and sends
    [register_interest_in_puzzle_hash] for the empty hash. *)
Theorem getBalance_invalid_puzzleHash_sends_frame :
  failsValidation "zz" /\
  getBalance (Buffer := Sample.Wire) None (Some "zz") None <> Return None /\
  registersFilter (getBalance (Buffer := Sample.Wire) None (Some "zz") None) = true /\
  frameSent (getBalance (Buffer := Sample.Wire) None (Some "zz") None) =
    Some (makeMsg register_interest_in_puzzle_hash
            {| RegisterForPhUpdates.puzzleHashes := [""];
               RegisterForPhUpdates.minHeight := 0 |}).
Proof.
  split; [reflexivity |]. split; [discriminate |]. split; reflexivity.
Qed.

(** ** The theorems at concrete inputs *)

Lemma sample_coin_id_validates : ~ failsValidation Sample.someCoinId.
Proof. intros Hf. vm_compute in Hf. discriminate. Qed.

Lemma getBalance_sums_unspent_witness :
  getBalance_puzHash (Some Sample.knownAddress) None = Some Sample.knownPuzzleHash /\
  consumedFrame (getBalance (Some Sample.knownAddress) None (Some 3)) Sample.balanceFrames
    = Some Sample.balanceUpdate /\
  complete (getBalance (Some Sample.knownAddress) None (Some 3)) Sample.balanceFrames
    = Some (Ok (Some (100 + 250))).
Proof.
  assert (Hph : getBalance_puzHash (Some Sample.knownAddress) None
                = Some Sample.knownPuzzleHash) by reflexivity.
  assert (Hconsumed : consumedFrame (getBalance (Some Sample.knownAddress) None (Some 3))
                                    Sample.balanceFrames
                      = Some Sample.balanceUpdate) by reflexivity.
  split; [exact Hph |]. split; [exact Hconsumed |].
  destruct (getBalance_sums_unspent (Some Sample.knownAddress) None (Some 3)
              Sample.knownPuzzleHash Sample.balanceFrames Sample.balanceUpdate Hph)
    as [_ Hsum].
  destruct (Hsum Hconsumed) as (rPckt & Hdata & Hcomplete).
  injection Hdata as <-. exact Hcomplete.
Defined.

Lemma getPuzzleSolution_answer_witness :
  ~ failsValidation Sample.someCoinId /\
  complete (getPuzzleSolution Sample.someCoinId 5) Sample.solutionFrames
    = Some (Ok (Some Sample.solutionResponse)) /\
  firstAccepted
    (fun m => rejectsPuzzleSolution Sample.someCoinId 5 m \/
              respondsPuzzleSolution Sample.someCoinId 5 m)
    Sample.solutionFrames Sample.solutionRespond.
Proof.
  assert (Hconsumed : consumedFrame (getPuzzleSolution Sample.someCoinId 5)
                                    Sample.solutionFrames
                      = Some Sample.solutionRespond) by reflexivity.
  split; [exact sample_coin_id_validates |].
  destruct (getPuzzleSolution_answer Sample.someCoinId 5 Sample.solutionFrames
              Sample.solutionRespond sample_coin_id_validates)
    as [Hfirst Hresult].
  split.
  - apply (proj2 (Hresult Hconsumed)
             {| RespondPuzzleSolution.response := Sample.solutionResponse |});
      reflexivity.
  - exact (proj1 Hfirst Hconsumed).
Defined.

Lemma getBlocksHeaders_answer_witness :
  (forall (headerBlock : Sample.HeaderBlock) (h : BigNumber),
      Sample.height (serializerHeaderBlockToProviderBlockHeader headerBlock h) = h) /\
  exists headers,
    complete (getBlocksHeaders 100 102) Sample.headersFrames = Some (Ok (Some headers)) /\
    length headers = 3%nat /\
    forall (i : nat) headerBlock,
      nth_error ["aa"; "bb"; "cc"] i = Some headerBlock ->
      exists header,
        nth_error headers i = Some header /\
        header = serializerHeaderBlockToProviderBlockHeader headerBlock (100 + Z.of_nat i) /\
        Sample.height header = 100 + Z.of_nat i.
Proof.
  assert (Hconsumed : consumedFrame (getBlocksHeaders 100 102) Sample.headersFrames
                      = Some (Sample.headersRespond 100 102)) by reflexivity.
  split; [reflexivity |].
  destruct (getBlocksHeaders_answer 100 102 Sample.headersFrames
              (Sample.headersRespond 100 102)
              (Sample.height : @ProviderBlockHeader _ Sample.providerUtil -> BigNumber)
              (fun headerBlock h => eq_refl))
    as [_ Hresult].
  apply (proj2 (Hresult Hconsumed)
           {| RespondHeaderBlocks.startHeight := 100;
              RespondHeaderBlocks.endHeight := 102;
              RespondHeaderBlocks.headerBlocks := ["aa"; "bb"; "cc"] |});
    reflexivity.
Defined.

Lemma getCoinChildren_answer_witness :
  ~ failsValidation Sample.someCoinId /\
  consumedFrame (getCoinChildren Sample.someCoinId) Sample.childrenFrames
    = Some (Sample.childrenOf Sample.someCoinId) /\
  complete (getCoinChildren Sample.someCoinId) Sample.childrenFrames
    = Some (Ok [Sample.mkCoinState Sample.someCoinId Sample.knownPuzzleHash 1 None;
                Sample.mkCoinState Sample.someCoinId Sample.otherPuzzleHash 2 (Some 8)]) /\
  complete (getCoinChildren Sample.someCoinId) [Sample.noChildren] = Some (Ok []).
Proof.
  assert (Hconsumed : consumedFrame (getCoinChildren Sample.someCoinId)
                                    Sample.childrenFrames
                      = Some (Sample.childrenOf Sample.someCoinId)) by reflexivity.
  assert (Hempty : consumedFrame (getCoinChildren Sample.someCoinId) [Sample.noChildren]
                   = Some Sample.noChildren) by reflexivity.
  split; [exact sample_coin_id_validates |]. split; [exact Hconsumed |]. split.
  - destruct (getCoinChildren_answer Sample.someCoinId Sample.childrenFrames
                (Sample.childrenOf Sample.someCoinId) sample_coin_id_validates)
      as [_ Hresult].
    destruct (Hresult Hconsumed) as (rPckt & Hdata & Hcomplete & _).
    injection Hdata as <-. exact Hcomplete.
  - destruct (getCoinChildren_answer Sample.someCoinId [Sample.noChildren]
                Sample.noChildren sample_coin_id_validates)
      as [_ Hresult].
    destruct (Hresult Hempty) as (rPckt & Hdata & _ & Hnil).
    injection Hdata as <-. exact (Hnil eq_refl).
Defined.

Lemma getBlockNumber_cached_peak_witness :
  getBlockNumber (Buffer := Sample.Wire)
    (feed connect (new_LeafletProvider "node" "key" None None) Sample.peakFrames)
    = Return (Some 12) /\
  getBlockNumber (Buffer := Sample.Wire)
    (feed connect (new_LeafletProvider "node" "key" None None) [Sample.noChildren])
    = Return None.
Proof.
  assert (Hconsumed : consumedFrames connect (new_LeafletProvider "node" "key" None None)
                                     Sample.peakFrames
                      = ([Sample.peak 10] ++ [Sample.peak 12])%list) by reflexivity.
  assert (Hnothing : consumedFrames connect (new_LeafletProvider "node" "key" None None)
                                    [Sample.noChildren]
                     = []) by reflexivity.
  split.
  - destruct (getBlockNumber_cached_peak "node" "key" None None Sample.peakFrames)
      as (_ & _ & _ & Hlast).
    destruct (Hlast [Sample.peak 10] (Sample.peak 12) Hconsumed)
      as (pckt & _ & Hdata & Hpeak).
    injection Hdata as <-. exact Hpeak.
  - destruct (getBlockNumber_cached_peak "node" "key" None None [Sample.noChildren])
      as (_ & _ & Hnone & _).
    exact (Hnone Hnothing).
Defined.

Lemma subscriptions_ignore_invalid_hash_witness :
  failsValidation "zz" /\
  subscribeToPuzzleHashUpdates (Buffer := Sample.Wire) "zz" Sample.record None = None /\
  deliver (subscribeToCoinUpdates "zz" Sample.record (Some 4)) [] Sample.balanceFrames = [].
Proof.
  assert (Hfails : failsValidation "zz") by reflexivity.
  split; [exact Hfails |].
  split.
  - exact (proj1 (proj1 (subscriptions_ignore_invalid_hash
                           "zz" Sample.record None [] Sample.balanceFrames Hfails))).
  - exact (proj2 (proj2 (proj2 (subscriptions_ignore_invalid_hash
                                  "zz" Sample.record (Some 4) [] Sample.balanceFrames
                                  Hfails)))).
Defined.

Lemma getCoinChildren_invalid_coinId_witness :
  failsValidation "0xZZ" /\
  getCoinChildren (Buffer := Sample.Wire) "0xZZ" = Return [] /\
  complete (getCoinChildren "0xZZ") Sample.childrenFrames = Some (Ok []).
Proof.
  assert (Hfails : failsValidation "0xZZ") by reflexivity.
  split; [exact Hfails |].
  destruct (getCoinChildren_invalid_coinId "0xZZ" Sample.childrenFrames Hfails)
    as (Hreturn & _ & _ & Hcomplete).
  split; [exact Hreturn | exact Hcomplete].
Defined.

Lemma getCoinRemovals_validation_witness :
  getCoinRemovals (Buffer := Sample.Wire) 7 Sample.knownPuzzleHash
                  (Some [Sample.someCoinId; "zz"]) = Return None /\
  frameSent (getCoinRemovals 7 Sample.knownPuzzleHash (Some [Sample.someCoinId])) =
    Some {| type := request_removals;
            data := Sample.WRequestRemovals
                      {| RequestRemovals.height := 7;
                         RequestRemovals.headerHash := Sample.knownPuzzleHash;
                         RequestRemovals.coinNames := Some [Sample.someCoinId] |} |}.
Proof.
  split.
  - apply (proj1 (getCoinRemovals_validation 7 Sample.knownPuzzleHash
                    (Some [Sample.someCoinId; "zz"]))).
    right. exists [Sample.someCoinId; "zz"], "zz".
    split; [reflexivity |]. split; [simpl; auto | reflexivity].
  - rewrite (proj2 (getCoinRemovals_validation 7 Sample.knownPuzzleHash
                      (Some [Sample.someCoinId]))).
    + reflexivity.
    + intros [Hf | (ids & c & [= <-] & [<- | []] & Hf)]; vm_compute in Hf; discriminate.
Defined.

(** * Further properties *)

(** ** Awaited filters in general *)

Section AwaitFacts.
Context {Buffer S R : Type}.
Variable P : Message Buffer -> Prop.
Variable f : Filter Buffer S.
Variable s0 : S.
Variable k : S -> Outcome R.
Hypothesis Hf : acceptsExactly P f.

Lemma await_consumed_iff (frames : list (Message Buffer)) (msg : Message Buffer) :
  consumedFrame (Await S f s0 k) frames = Some msg <-> firstAccepted P frames msg.
Proof.
  simpl. split.
  - destruct (offer f s0 frames) as [[m s]|] eqn:Hoffer; [| discriminate].
    simpl. intros [= ->]. exact (proj1 (offer_sound P f Hf frames _ _ _ Hoffer)).
  - intros Hfirst. destruct (offer_complete P f Hf frames s0 msg Hfirst) as (s & -> & _).
    reflexivity.
Qed.

Lemma await_complete (frames : list (Message Buffer)) (msg : Message Buffer) :
  consumedFrame (Await S f s0 k) frames = Some msg ->
  exists s, consumeMessage f msg s0 = Ok (true, s) /\
            complete (Await S f s0 k) frames = Some (k s).
Proof.
  simpl. destruct (offer f s0 frames) as [[m s]|] eqn:Hoffer; [| discriminate].
  simpl. intros [= ->]. exists s. split; [| reflexivity].
  exact (proj2 (offer_sound P f Hf frames _ _ _ Hoffer)).
Qed.



Lemma await_single (frames : list (Message Buffer)) (msg : Message Buffer) :
  consumedFrame (Await S f s0 k) frames = Some msg ->
  complete (Await S f s0 k) frames = complete (Await S f s0 k) [msg].
Proof.
  intros Hc. destruct (await_complete frames msg Hc) as (s & Hcons & ->).
  simpl. rewrite Hcons. reflexivity.
Qed.
End AwaitFacts.

Lemma feed_app {Buffer S : Type} (f : Filter Buffer S) (frames1 frames2 : list (Message Buffer)) :
  forall s, feed f s (frames1 ++ frames2)%list = feed f (feed f s frames1) frames2.
Proof.
  induction frames1 as [|m rest IH]; intros s; simpl; [reflexivity |].
  destruct (consumeMessage f m s) as [[b s']|e]; apply IH.
Qed.

(** Closes one case of a case lemma whose answers carry one or two keys. *)
Ltac settle_answer :=
  try congruence;
  first
    [ left; split;
      [split; [assumption | eexists; repeat split; eassumption] | reflexivity]
    | right; left; eexists; split;
      [ split; [assumption | eexists; repeat split; eassumption]
      | split; [first [eassumption | reflexivity] | reflexivity] ]
    | right; right; split; [| split];
      [ intros [? (? & ? & ?)];
        repeat match goal with Hc : _ /\ _ |- _ => destruct Hc end; congruence
      | intros [? (? & ? & ?)];
        repeat match goal with Hc : _ /\ _ |- _ => destruct Hc end; congruence
      | first [left; reflexivity | right; eexists; reflexivity] ] ].

(** ** getBlockHeader and getCoinAdditions *)

Section ProviderRestFacts.
Context {Buffer HeaderBlock : Type}.
Context `{AddressUtil} `{HeaderBlockFields HeaderBlock}
        `{HeaderAndAdditionsSerializer Buffer HeaderBlock}
        `{ProviderUtil HeaderBlock}.

Lemma getBlockHeader_consumeMessage_cases (height : uint)
    (msg : Message Buffer) (l : Locals (RespondBlockHeader.t HeaderBlock)) :
  (rejectsHeaderRequest height msg /\
   getBlockHeader_consumeMessage height msg l =
     Ok (true, {| respPckt := respPckt l; returnNull := true |}))
  \/
  (exists rPckt : RespondBlockHeader.t HeaderBlock,
     respondsBlockHeader height msg /\
     deserialize (data msg) = Some rPckt /\
     getBlockHeader_consumeMessage height msg l =
       Ok (true, {| respPckt := Some rPckt; returnNull := returnNull l |}))
  \/
  (~ rejectsHeaderRequest height msg /\
   ~ respondsBlockHeader height msg /\
   (getBlockHeader_consumeMessage height msg l = Ok (false, l) \/
    exists e, getBlockHeader_consumeMessage height msg l = Raise e)).
Proof.
  unfold getBlockHeader_consumeMessage. run_closure.
  all: unfold rejectsHeaderRequest, respondsBlockHeader.
  all: settle_answer.
Qed.

Lemma getBlockHeader_filter_accepts (height : uint)
    (msgToSend : option (Message Buffer)) (d : option bool) (w : option Z) :
  acceptsExactly
    (fun m => rejectsHeaderRequest height m \/ respondsBlockHeader height m)
    {| messageToSend := msgToSend;
       consumeMessage := getBlockHeader_consumeMessage height;
       deleteAfterFirstMessageConsumed := d;
       expectedMaxRensponseWait := w |}.
Proof.
  intros msg l. simpl.
  destruct (getBlockHeader_consumeMessage_cases height msg l)
    as [[Hrej ->] | [(r & Hresp & _ & ->) | (Hnrej & Hnresp & [-> | [e ->]])]].
  - now left.
  - now right.
  - split; [tauto | reflexivity].
  - tauto.
Qed.

(** X1: [getBlockHeader] always sends [request_block_header] for the
    height; the frame that completes it is exactly the first
    [reject_header_request] for that height or [respond_block_header]
    whose reward chain block is at that height.  The reject gives null;
    the respond gives the translation of its header block at the
    requested height, which (the helper storing the height it is given)
    is the block's own reward-chain height. *)
Theorem getBlockHeader_answer (height : uint)
    (frames : list (Message Buffer)) (msg : Message Buffer)
    (heightOf : ProviderBlockHeader -> BigNumber) :
  (forall headerBlock h,
      heightOf (serializerHeaderBlockToProviderBlockHeader headerBlock h) = h) ->
  frameSent (getBlockHeader height) =
    Some (makeMsg request_block_header {| RequestBlockHeader.height := height |}) /\
  (consumedFrame (getBlockHeader height) frames = Some msg <->
   firstAccepted
     (fun m => rejectsHeaderRequest height m \/ respondsBlockHeader height m)
     frames msg) /\
  (consumedFrame (getBlockHeader height) frames = Some msg ->
   (type msg = reject_header_request ->
    complete (getBlockHeader height) frames = Some (Ok None)) /\
   (forall rPckt : RespondBlockHeader.t HeaderBlock,
      type msg = respond_block_header ->
      deserialize (data msg) = Some rPckt ->
      complete (getBlockHeader height) frames =
        Some (Ok (Some (serializerHeaderBlockToProviderBlockHeader
                          (RespondBlockHeader.headerBlock rPckt) height))) /\
      heightOf (serializerHeaderBlockToProviderBlockHeader
                  (RespondBlockHeader.headerBlock rPckt) height)
        = rewardChainBlock_height (RespondBlockHeader.headerBlock rPckt))).
Proof.
  intros Hheight. unfold getBlockHeader.
  set (f := {| messageToSend := _ |}).
  set (l0 := {| respPckt := None; returnNull := false |}).
  set (k := fun l : Locals (RespondBlockHeader.t HeaderBlock) => _).
  assert (Hf : acceptsExactly
                 (fun m => rejectsHeaderRequest height m \/ respondsBlockHeader height m) f)
    by apply getBlockHeader_filter_accepts.
  split; [reflexivity |].
  split; [apply (await_consumed_iff _ f l0 k Hf) |].
  intros Hc. destruct (await_complete _ f l0 k Hf frames msg Hc) as (l & Hcons & ->).
  simpl in Hcons.
  destruct (getBlockHeader_consumeMessage_cases height msg l0)
    as [[Hrej E] | [(r & Hresp & Hr & E) | (_ & _ & [E | [e E]])]];
    rewrite E in Hcons; inversion Hcons; subst l; unfold k; simpl.
  - split; [reflexivity |].
    intros rPckt Hty _. destruct Hrej as [Hty' _]. congruence.
  - split.
    + intros Hty'. destruct Hresp as [Hty _]. congruence.
    + intros rPckt _ Hr'. assert (r = rPckt) by congruence. subst r.
      split; [reflexivity |]. rewrite Hheight.
      destruct Hresp as (_ & r' & Hr'' & Hh). congruence.
Qed.

Lemma getCoinAdditions_consumeMessage_cases (height : uint) (headerHash : bytes)
    (msg : Message Buffer) (l : Locals RespondAdditions.t) :
  (rejectsAdditions height headerHash msg /\
   getCoinAdditions_consumeMessage height headerHash msg l =
     Ok (true, {| respPckt := respPckt l; returnNull := true |}))
  \/
  (exists rPckt : RespondAdditions.t,
     respondsAdditions height headerHash msg /\
     deserialize (data msg) = Some rPckt /\
     getCoinAdditions_consumeMessage height headerHash msg l =
       Ok (true, {| respPckt := Some rPckt; returnNull := returnNull l |}))
  \/
  (~ rejectsAdditions height headerHash msg /\
   ~ respondsAdditions height headerHash msg /\
   (getCoinAdditions_consumeMessage height headerHash msg l = Ok (false, l) \/
    exists e, getCoinAdditions_consumeMessage height headerHash msg l = Raise e)).
Proof.
  unfold getCoinAdditions_consumeMessage. run_closure.
  all: unfold rejectsAdditions, respondsAdditions.
  all: settle_answer.
Qed.

Lemma getCoinAdditions_filter_accepts (height : uint) (headerHash : bytes)
    (msgToSend : option (Message Buffer)) (d : option bool) (w : option Z) :
  acceptsExactly
    (fun m => rejectsAdditions height headerHash m \/
              respondsAdditions height headerHash m)
    {| messageToSend := msgToSend;
       consumeMessage := getCoinAdditions_consumeMessage height headerHash;
       deleteAfterFirstMessageConsumed := d;
       expectedMaxRensponseWait := w |}.
Proof.
  intros msg l. simpl.
  destruct (getCoinAdditions_consumeMessage_cases height headerHash msg l)
    as [[Hrej ->] | [(r & Hresp & _ & ->) | (Hnrej & Hnresp & [-> | [e ->]])]].
  - now left.
  - now right.
  - split; [tauto | reflexivity].
  - tauto.
Qed.

(** X2: [getCoinAdditions] returns null without sending a frame when the
    header hash fails validation or some given puzzle hash fails
    validation; otherwise it sends [request_additions] with the height,
    the validated header hash and the validated puzzle hashes (null when
    none were given, a list, possibly empty, when a list was given). *)
Theorem getCoinAdditions_validation (height : uint) (headerHash : string)
    (puzzleHashes : option (list string)) :
  (failsValidation headerHash \/
   (exists hashes h, puzzleHashes = Some hashes /\ In h hashes /\ failsValidation h) ->
   getCoinAdditions height headerHash puzzleHashes = Return None /\
   frameSent (getCoinAdditions height headerHash puzzleHashes) = None) /\
  (~ (failsValidation headerHash \/
      (exists hashes h, puzzleHashes = Some hashes /\ In h hashes /\ failsValidation h)) ->
   frameSent (getCoinAdditions height headerHash puzzleHashes) =
     Some (makeMsg request_additions
             {| RequestAdditions.height := height;
                RequestAdditions.headerHash := validateHashString headerHash;
                RequestAdditions.puzzleHashes :=
                  option_map (map validateHashString) puzzleHashes |})).
Proof.
  unfold getCoinAdditions.
  destruct (isEmpty (validateHashString headerHash)) eqn:Hh.
  - apply isEmpty_true in Hh. split; [now intros _ |].
    intros Hn. exfalso. apply Hn. now left.
  - apply isEmpty_false in Hh.
    destruct puzzleHashes as [hashes|]; simpl.
    + destruct (parseHashes hashes) as [parsed|] eqn:Hparse.
      * split.
        -- intros [Hf | (hashes' & c & [= <-] & Hin & Hf)]; [contradiction |].
           assert (Hnone : parseHashes hashes = None) by (apply parseHashes_None; eauto).
           congruence.
        -- intros _. simpl. now rewrite (parseHashes_Some _ _ Hparse).
      * split; [now intros _ |].
        intros Hn. exfalso. apply Hn. right.
        destruct (proj1 (parseHashes_None hashes) Hparse) as (c & Hin & Hf).
        exists hashes, c. auto.
    + split.
      * intros [Hf | (hashes' & c & Hids & _)]; [contradiction | discriminate].
      * intros _. reflexivity.
Qed.

Lemma flat_map_pushEach {A B C} (g : B -> C) (sel : A -> list B) (l : list A) :
  flat_map (fun x => pushEach (fun _ b => g b) 0 (sel x)) l
  = map g (concat (map sel l)).
Proof.
  induction l as [|x rest IH]; simpl; [reflexivity |].
  now rewrite pushEach_map, IH, map_app.
Qed.

(** X3: when [getCoinAdditions] has sent its request, the frame that
    completes it is exactly the first [reject_additions_request] or
    [respond_additions] with the requested height and the validated header
    hash.  The reject gives null; the respond gives the translated coins
    of all entries, flattened in entry order. *)
Theorem getCoinAdditions_answer (height : uint) (headerHash : string)
    (puzzleHashes : option (list string))
    (frames : list (Message Buffer)) (msg : Message Buffer) :
  registersFilter (getCoinAdditions height headerHash puzzleHashes) = true ->
  (consumedFrame (getCoinAdditions height headerHash puzzleHashes) frames = Some msg <->
   firstAccepted
     (fun m => rejectsAdditions height (validateHashString headerHash) m \/
               respondsAdditions height (validateHashString headerHash) m)
     frames msg) /\
  (consumedFrame (getCoinAdditions height headerHash puzzleHashes) frames = Some msg ->
   (type msg = reject_additions_request ->
    complete (getCoinAdditions height headerHash puzzleHashes) frames = Some (Ok None)) /\
   (forall rPckt : RespondAdditions.t,
      type msg = respond_additions ->
      deserialize (data msg) = Some rPckt ->
      complete (getCoinAdditions height headerHash puzzleHashes) frames =
        Some (Ok (Some (map serializerCoinToProviderCoin
                            (concat (map snd (RespondAdditions.coins rPckt)))))))).
Proof.
  unfold getCoinAdditions.
  destruct (isEmpty (validateHashString headerHash)); [discriminate |].
  destruct (match puzzleHashes with Some hashes => parseHashes hashes | None => Some [] end)
    as [parsed|]; [| discriminate].
  intros _.
  set (hh := validateHashString headerHash).
  set (f := {| messageToSend := _ |}).
  set (l0 := {| respPckt := None; returnNull := false |}).
  set (k := fun l : Locals RespondAdditions.t => _).
  assert (Hf : acceptsExactly
                 (fun m => rejectsAdditions height hh m \/ respondsAdditions height hh m) f)
    by apply getCoinAdditions_filter_accepts.
  split; [apply (await_consumed_iff _ f l0 k Hf) |].
  intros Hc. destruct (await_complete _ f l0 k Hf frames msg Hc) as (l & Hcons & ->).
  simpl in Hcons.
  destruct (getCoinAdditions_consumeMessage_cases height hh msg l0)
    as [[Hrej E] | [(r & Hresp & Hr & E) | (_ & _ & [E | [e E]])]];
    rewrite E in Hcons; inversion Hcons; subst l; unfold k; simpl.
  - split; [reflexivity |].
    intros rPckt Hty _. destruct Hrej as [Hty' _]. congruence.
  - split.
    + intros Hty'. destruct Hresp as [Hty _]. congruence.
    + intros rPckt _ Hr'. assert (r = rPckt) by congruence. subst r.
      now rewrite flat_map_pushEach.
Qed.
End ProviderRestFacts.

(** ** More on the methods of the first part *)

Section ProviderMoreFacts.
Context {Buffer HeaderBlock : Type}.
Context `{AddressUtil} `{CoinUtil} `{Serializer Buffer HeaderBlock}
        `{ProviderUtil HeaderBlock}.

(** *** getCoinRemovals *)

Lemma getCoinRemovals_consumeMessage_cases (height : uint) (headerHash : bytes)
    (msg : Message Buffer) (l : Locals RespondRemovals.t) :
  (rejectsRemovals height headerHash msg /\
   getCoinRemovals_consumeMessage height headerHash msg l =
     Ok (true, {| respPckt := respPckt l; returnNull := true |}))
  \/
  (exists rPckt : RespondRemovals.t,
     respondsRemovals height headerHash msg /\
     deserialize (data msg) = Some rPckt /\
     getCoinRemovals_consumeMessage height headerHash msg l =
       Ok (true, {| respPckt := Some rPckt; returnNull := returnNull l |}))
  \/
  (~ rejectsRemovals height headerHash msg /\
   ~ respondsRemovals height headerHash msg /\
   (getCoinRemovals_consumeMessage height headerHash msg l = Ok (false, l) \/
    exists e, getCoinRemovals_consumeMessage height headerHash msg l = Raise e)).
Proof.
  unfold getCoinRemovals_consumeMessage. run_closure.
  all: unfold rejectsRemovals, respondsRemovals.
  all: settle_answer.
Qed.

Lemma getCoinRemovals_filter_accepts (height : uint) (headerHash : bytes)
    (msgToSend : option (Message Buffer)) (d : option bool) (w : option Z) :
  acceptsExactly
    (fun m => rejectsRemovals height headerHash m \/
              respondsRemovals height headerHash m)
    {| messageToSend := msgToSend;
       consumeMessage := getCoinRemovals_consumeMessage height headerHash;
       deleteAfterFirstMessageConsumed := d;
       expectedMaxRensponseWait := w |}.
Proof.
  intros msg l. simpl.
  destruct (getCoinRemovals_consumeMessage_cases height headerHash msg l)
    as [[Hrej ->] | [(r & Hresp & _ & ->) | (Hnrej & Hnresp & [-> | [e ->]])]].
  - now left.
  - now right.
  - split; [tauto | reflexivity].
  - tauto.
Qed.

Lemma present_coins_flat_map {C} (g : Coin.t -> C) (l : list (bytes * option Coin.t)) :
  flat_map (fun thing : bytes * option Coin.t =>
              match snd thing with Some c => [g c] | None => [] end) l
  = map g (flat_map (fun o : option Coin.t =>
                       match o with Some c => [c] | None => [] end) (map snd l)).
Proof.
  induction l as [|[key [c|]] rest IH]; simpl; [reflexivity | now rewrite IH | exact IH].
Qed.

Lemma present_coins_length (l : list (bytes * option Coin.t)) :
  length (flat_map (fun o : option Coin.t =>
                      match o with Some c => [c] | None => [] end) (map snd l))
  = length (filter (fun thing => negb (isNull (snd thing))) l).
Proof.
  induction l as [|[key [c|]] rest IH]; simpl; [reflexivity | now rewrite IH | exact IH].
Qed.

(** X4: when [getCoinRemovals] has sent its request, the frame that
    completes it is exactly the first [reject_removals_request] or
    [respond_removals] with the requested height and the validated header
    hash.  The reject gives null; the respond gives the translations, in
    entry order, of exactly the entries whose coin is not null, so the
    result has as many coins as the response has non-null entries. *)
Theorem getCoinRemovals_answer (height : uint) (headerHash : string)
    (coinIds : option (list string))
    (frames : list (Message Buffer)) (msg : Message Buffer) :
  registersFilter (getCoinRemovals height headerHash coinIds) = true ->
  (consumedFrame (getCoinRemovals height headerHash coinIds) frames = Some msg <->
   firstAccepted
     (fun m => rejectsRemovals height (validateHashString headerHash) m \/
               respondsRemovals height (validateHashString headerHash) m)
     frames msg) /\
  (consumedFrame (getCoinRemovals height headerHash coinIds) frames = Some msg ->
   (type msg = reject_removals_request ->
    complete (getCoinRemovals height headerHash coinIds) frames = Some (Ok None)) /\
   (forall rPckt : RespondRemovals.t,
      type msg = respond_removals ->
      deserialize (data msg) = Some rPckt ->
      exists coins,
        complete (getCoinRemovals height headerHash coinIds) frames
          = Some (Ok (Some coins)) /\
        coins = map serializerCoinToProviderCoin
                    (flat_map (fun o : option Coin.t =>
                                 match o with Some c => [c] | None => [] end)
                              (map snd (RespondRemovals.coins rPckt))) /\
        length coins =
          length (filter (fun thing => negb (isNull (snd thing)))
                         (RespondRemovals.coins rPckt)))).
Proof.
  unfold getCoinRemovals.
  destruct (isEmpty (validateHashString headerHash)); [discriminate |].
  destruct (match coinIds with Some ids => parseHashes ids | None => Some [] end)
    as [parsed|]; [| discriminate].
  intros _.
  set (hh := validateHashString headerHash).
  set (f := {| messageToSend := _ |}).
  set (l0 := {| respPckt := None; returnNull := false |}).
  set (k := fun l : Locals RespondRemovals.t => _).
  assert (Hf : acceptsExactly
                 (fun m => rejectsRemovals height hh m \/ respondsRemovals height hh m) f)
    by apply getCoinRemovals_filter_accepts.
  split; [apply (await_consumed_iff _ f l0 k Hf) |].
  intros Hc. destruct (await_complete _ f l0 k Hf frames msg Hc) as (l & Hcons & ->).
  simpl in Hcons.
  destruct (getCoinRemovals_consumeMessage_cases height hh msg l0)
    as [[Hrej E] | [(r & Hresp & Hr & E) | (_ & _ & [E | [e E]])]];
    rewrite E in Hcons; inversion Hcons; subst l; unfold k; simpl.
  - split; [reflexivity |].
    intros rPckt Hty _. destruct Hrej as [Hty' _]. congruence.
  - split.
    + intros Hty'. destruct Hresp as [Hty _]. congruence.
    + intros rPckt _ Hr'. assert (r = rPckt) by congruence. subst r.
      eexists. split; [reflexivity |]. rewrite present_coins_flat_map.
      split; [reflexivity |]. now rewrite length_map, present_coins_length.
Qed.

(** *** getPuzzleSolution on invalid input *)

(** X5: when the coin id fails validation, [getPuzzleSolution] returns
    null at once, whatever the height: no filter is registered, no frame
    is sent, and no inbound frame changes the result. *)
Theorem getPuzzleSolution_invalid_coinId (coinId : string) (height : uint)
    (frames : list (Message Buffer)) :
  failsValidation coinId ->
  getPuzzleSolution coinId height = Return None /\
  frameSent (getPuzzleSolution coinId height) = None /\
  registersFilter (getPuzzleSolution coinId height) = false /\
  complete (getPuzzleSolution coinId height) frames = Some (Ok None).
Proof.
  unfold failsValidation, getPuzzleSolution. intros ->. simpl. repeat split.
Qed.

(** *** What goes out *)

Lemma parseHashes_nonempty (hashes : list string) :
  forall parsed, parseHashes hashes = Some parsed ->
                 length parsed = length hashes /\ forall c, In c parsed -> c <> "".
Proof.
  induction hashes as [|h rest IH]; simpl; intros parsed.
  - intros [= <-]. split; [reflexivity | intros ? []].
  - destruct (isEmpty (validateHashString h)) eqn:Hh; [discriminate |].
    apply isEmpty_false in Hh.
    destruct (parseHashes rest) as [parsedRest|]; [| discriminate].
    intros [= <-]. destruct (IH parsedRest eq_refl) as [Hlen Hne].
    split; [simpl; now rewrite Hlen |].
    intros c [<- | Hin]; [assumption | now apply Hne].
Qed.

(** X6: no request of [getPuzzleSolution], [getCoinChildren] or
    [getCoinRemovals], and no subscription, ever goes out with an empty
    hash: whenever one of them sends a frame, the frame is the expected
    request built from the validated input, and every hash in it is a
    non-empty result of [validateHashString]. *)
Theorem requests_carry_validated_hashes {U : Type} (hash : string) (height : uint)
    (coinIds : option (list string)) (callback : list CoinState.t -> U -> U)
    (minHeight : option Z) (msg : Message Buffer) :
  (frameSent (getPuzzleSolution hash height) = Some msg ->
   validateHashString hash <> "" /\
   msg = makeMsg request_puzzle_solution
           {| RequestPuzzleSolution.coinName := validateHashString hash;
              RequestPuzzleSolution.height := height |}) /\
  (frameSent (getCoinChildren hash) = Some msg ->
   validateHashString hash <> "" /\
   msg = makeMsg request_children
           {| RequestChildren.coinName := validateHashString hash |}) /\
  (frameSent (getCoinRemovals height hash coinIds) = Some msg ->
   exists pckt : RequestRemovals.t,
     msg = makeMsg request_removals pckt /\
     RequestRemovals.height pckt = height /\
     RequestRemovals.headerHash pckt = validateHashString hash /\
     RequestRemovals.headerHash pckt <> "" /\
     RequestRemovals.coinNames pckt = option_map (map validateHashString) coinIds /\
     forall names, RequestRemovals.coinNames pckt = Some names ->
                   forall c, In c names -> c <> "") /\
  (frameSentBy (subscribeToPuzzleHashUpdates hash callback minHeight) = Some msg ->
   validateHashString hash <> "" /\
   msg = makeMsg register_interest_in_puzzle_hash
           {| RegisterForPhUpdates.puzzleHashes := [validateHashString hash];
              RegisterForPhUpdates.minHeight :=
                match minHeight with Some h => h | None => 0 end |}) /\
  (frameSentBy (subscribeToCoinUpdates hash callback minHeight) = Some msg ->
   validateHashString hash <> "" /\
   msg = makeMsg register_interest_in_coin
           {| RegisterForCoinUpdates.coinIds := [validateHashString hash];
              RegisterForCoinUpdates.minHeight :=
                match minHeight with Some h => h | None => 0 end |}).
Proof.
  unfold getPuzzleSolution, getCoinChildren, getCoinRemovals,
    subscribeToPuzzleHashUpdates, subscribeToCoinUpdates.
  destruct (isEmpty (validateHashString hash)) eqn:Hh; simpl.
  - repeat split; discriminate.
  - apply isEmpty_false in Hh.
    split; [intros [= <-]; now split |].
    split; [intros [= <-]; now split |].
    split; [| split; intros [= <-]; now split].
    destruct coinIds as [ids|]; simpl.
    + destruct (parseHashes ids) as [parsed|] eqn:Hparse; simpl; [| discriminate].
      intros [= <-]. eexists. split; [reflexivity |]. simpl.
      destruct (parseHashes_nonempty _ _ Hparse) as [_ Hne].
      rewrite (parseHashes_Some _ _ Hparse) in *.
      repeat split; try assumption.
      intros names [= <-]. exact Hne.
    + intros [= <-]. eexists. split; [reflexivity |]. simpl.
      repeat split; try assumption. discriminate.
Qed.

(** *** getBalance: which argument is used *)

(** X7: an address that starts with "xch" makes [getBalance] ignore the
    [puzzleHash] argument altogether, so that such an address that does
    not decode gives null even next to a valid puzzle hash; an address
    without the prefix is itself ignored and the puzzle hash is used. *)
Theorem getBalance_address_precedence (addr : string) (puzzleHash : option string)
    (minHeight : option Z) :
  (prefix ADDRESS_PREFIX addr = true ->
   getBalance (Some addr) puzzleHash minHeight = getBalance (Some addr) None minHeight /\
   (failsDecoding addr ->
    getBalance (Some addr) puzzleHash minHeight = Return None) /\
   (~ failsDecoding addr ->
    getBalance_puzHash (Some addr) puzzleHash = Some (addressToPuzzleHash addr))) /\
  (prefix ADDRESS_PREFIX addr = false ->
   getBalance (Some addr) puzzleHash minHeight = getBalance None puzzleHash minHeight).
Proof.
  unfold getBalance, getBalance_puzHash, failsDecoding. split; intros ->.
  - split; [reflexivity |]. split.
    + intros ->. reflexivity.
    + intros Hne. apply isEmpty_false in Hne. now rewrite Hne.
  - reflexivity.
Qed.
End ProviderMoreFacts.

(** ** Requests under arbitrary traffic *)

Section ProviderTrafficFacts.
Context {Buffer HeaderBlock : Type}.
Context `{AddressUtil} `{CoinUtil} `{Serializer Buffer HeaderBlock}
        `{ProviderUtil HeaderBlock}.

(** Every awaiting request of the first part, with the frames its filter
    accepts. *)
Lemma getBalance_awaits (address puzzleHash : option string) (minHeight : option Z)
    (puzHash : bytes) :
  getBalance_puzHash address puzzleHash = Some puzHash ->
  exists f k,
    getBalance address puzzleHash minHeight = Await (list CoinState.t) f [] k /\
    consumeMessage f = getBalance_consumeMessage puzHash /\
    acceptsExactly (answersPhUpdate puzHash) f /\
    forall coinStates, exists balance, k coinStates = Ok (Some balance).
Proof.
  intros Hph. unfold getBalance. rewrite Hph. eexists. eexists.
  split; [reflexivity |]. split; [reflexivity |].
  split; [apply getBalance_filter_accepts | eauto].
Qed.

Lemma getPuzzleSolution_awaits (coinId : string) (height : uint) :
  ~ failsValidation coinId ->
  exists f k,
    getPuzzleSolution coinId height =
      Await _ f {| respPckt := None; returnNull := false |} k /\
    consumeMessage f = getPuzzleSolution_consumeMessage (validateHashString coinId) height /\
    acceptsExactly
      (fun m => rejectsPuzzleSolution (validateHashString coinId) height m \/
                respondsPuzzleSolution (validateHashString coinId) height m) f /\
    forall l, (returnNull l = true \/ respPckt l <> None) -> exists r, k l = Ok r.
Proof.
  intros Hvalid. apply isEmpty_false in Hvalid.
  unfold getPuzzleSolution. rewrite Hvalid. eexists. eexists.
  split; [reflexivity |]. split; [reflexivity |].
  split; [apply getPuzzleSolution_filter_accepts |].
  intros [[r|] [|]] [Hn | Hr]; simpl in *; eauto; congruence.
Qed.

Lemma getCoinChildren_awaits (coinId : string) :
  ~ failsValidation coinId ->
  exists f k,
    getCoinChildren coinId = Await _ f None k /\
    consumeMessage f = getCoinChildren_consumeMessage (validateHashString coinId) /\
    acceptsExactly (respondsChildren (validateHashString coinId)) f /\
    forall r, exists coinStates, k (Some r) = Ok coinStates.
Proof.
  intros Hvalid. apply isEmpty_false in Hvalid.
  unfold getCoinChildren. rewrite Hvalid. eexists. eexists.
  split; [reflexivity |]. split; [reflexivity |].
  split; [apply getCoinChildren_filter_accepts | eauto].
Qed.

Lemma getBlocksHeaders_awaits (startHeight endHeight : uint) :
  exists f k,
    getBlocksHeaders startHeight endHeight =
      Await _ f {| respPckt := None; returnNull := false |} k /\
    consumeMessage f = getBlocksHeaders_consumeMessage startHeight endHeight /\
    acceptsExactly
      (fun m => rejectsHeaderBlocks startHeight endHeight m \/
                respondsHeaderBlocks startHeight endHeight m) f /\
    forall l, (returnNull l = true \/ respPckt l <> None) -> exists r, k l = Ok r.
Proof.
  unfold getBlocksHeaders. eexists. eexists.
  split; [reflexivity |]. split; [reflexivity |].
  split; [apply getBlocksHeaders_filter_accepts |].
  intros [[r|] [|]] [Hn | Hr]; simpl in *; eauto; congruence.
Qed.

Lemma getCoinRemovals_awaits (height : uint) (headerHash : string)
    (coinIds : option (list string)) :
  registersFilter (getCoinRemovals height headerHash coinIds) = true ->
  exists f k,
    getCoinRemovals height headerHash coinIds =
      Await _ f {| respPckt := None; returnNull := false |} k /\
    consumeMessage f =
      getCoinRemovals_consumeMessage height (validateHashString headerHash) /\
    acceptsExactly
      (fun m => rejectsRemovals height (validateHashString headerHash) m \/
                respondsRemovals height (validateHashString headerHash) m) f /\
    forall l, (returnNull l = true \/ respPckt l <> None) -> exists r, k l = Ok r.
Proof.
  unfold getCoinRemovals.
  destruct (isEmpty (validateHashString headerHash)); [discriminate |].
  destruct (match coinIds with Some ids => parseHashes ids | None => Some [] end)
    as [parsed|]; [| discriminate].
  intros _. eexists. eexists.
  split; [reflexivity |]. split; [reflexivity |].
  split; [apply getCoinRemovals_filter_accepts |].
  intros [[r|] [|]] [Hn | Hr]; simpl in *; eauto; congruence.
Qed.

Lemma registersFilter_false {R} (t : Task Buffer R) :
  registersFilter t = false -> exists r, t = Return r.
Proof. destruct t; [eauto | discriminate]. Qed.



(** X10: the result of a request depends only on the frame that completes
    it: the frames that arrived before it and were turned down, and every
    frame after it, leave the returned value as if that frame had come
    alone. *)
Theorem requests_depend_on_consumed_frame_only (address puzzleHash : option string)
    (minHeight : option Z) (coinId headerHash : string)
    (height startHeight endHeight : uint) (coinIds : option (list string))
    (frames : list (Message Buffer)) (msg : Message Buffer) :
  (consumedFrame (getBalance address puzzleHash minHeight) frames = Some msg ->
   complete (getBalance address puzzleHash minHeight) frames
   = complete (getBalance address puzzleHash minHeight) [msg]) /\
  (consumedFrame (getPuzzleSolution coinId height) frames = Some msg ->
   complete (getPuzzleSolution coinId height) frames
   = complete (getPuzzleSolution coinId height) [msg]) /\
  (consumedFrame (getCoinChildren coinId) frames = Some msg ->
   complete (getCoinChildren coinId) frames
   = complete (getCoinChildren coinId) [msg]) /\
  (consumedFrame (getBlocksHeaders startHeight endHeight) frames = Some msg ->
   complete (getBlocksHeaders startHeight endHeight) frames
   = complete (getBlocksHeaders startHeight endHeight) [msg]) /\
  (consumedFrame (getCoinRemovals height headerHash coinIds) frames = Some msg ->
   complete (getCoinRemovals height headerHash coinIds) frames
   = complete (getCoinRemovals height headerHash coinIds) [msg]).
Proof.
  repeat split.
  - destruct (getBalance_puzHash address puzzleHash) as [puzHash|] eqn:Hph.
    + destruct (getBalance_awaits address puzzleHash minHeight puzHash Hph)
        as (f & k & -> & _ & Hf & _).
      apply (await_single _ f _ k Hf).
    + unfold getBalance. rewrite Hph. discriminate.
  - destruct (isEmpty (validateHashString coinId)) eqn:Hv.
    + unfold getPuzzleSolution. rewrite Hv. discriminate.
    + apply isEmpty_false in Hv.
      destruct (getPuzzleSolution_awaits coinId height Hv) as (f & k & -> & _ & Hf & _).
      apply (await_single _ f _ k Hf).
  - destruct (isEmpty (validateHashString coinId)) eqn:Hv.
    + unfold getCoinChildren. rewrite Hv. discriminate.
    + apply isEmpty_false in Hv.
      destruct (getCoinChildren_awaits coinId Hv) as (f & k & -> & _ & Hf & _).
      apply (await_single _ f _ k Hf).
  - destruct (getBlocksHeaders_awaits startHeight endHeight) as (f & k & -> & _ & Hf & _).
    apply (await_single _ f _ k Hf).
  - destruct (registersFilter (getCoinRemovals height headerHash coinIds)) eqn:Hreg.
    + destruct (getCoinRemovals_awaits height headerHash coinIds Hreg)
        as (f & k & -> & _ & Hf & _).
      apply (await_single _ f _ k Hf).
    + destruct (registersFilter_false _ Hreg) as [r ->]. discriminate.
Qed.

Lemma firstAccepted_single (P : Message Buffer -> Prop) (msg m : Message Buffer) :
  firstAccepted P [m] msg -> P msg.
Proof. intros (pre & post & _ & HP & _). exact HP. Qed.

(** X11: two puzzle-solution requests whose validated coin ids or heights
    differ never complete on the same frame, and neither do two
    header-range requests whose start or end heights differ: an answer
    taken by one is turned down by the other. *)
Theorem requests_with_different_keys_do_not_collide
    (coinId1 coinId2 : string) (height1 height2 : uint)
    (start1 end1 start2 end2 : uint) (msg : Message Buffer) :
  ~ failsValidation coinId1 ->
  ~ failsValidation coinId2 ->
  (validateHashString coinId1 <> validateHashString coinId2 \/ height1 <> height2 ->
   consumedFrame (getPuzzleSolution coinId1 height1) [msg] = Some msg ->
   consumedFrame (getPuzzleSolution coinId2 height2) [msg] = None) /\
  (start1 <> start2 \/ end1 <> end2 ->
   consumedFrame (getBlocksHeaders start1 end1) [msg] = Some msg ->
   consumedFrame (getBlocksHeaders start2 end2) [msg] = None).
Proof.
  intros Hv1 Hv2. split.
  - intros Hdiff.
    destruct (getPuzzleSolution_awaits coinId1 height1 Hv1) as (f1 & k1 & -> & _ & Hf1 & _).
    destruct (getPuzzleSolution_awaits coinId2 height2 Hv2) as (f2 & k2 & -> & _ & Hf2 & _).
    intros Hc. apply (await_consumed_iff _ f1 _ k1 Hf1) in Hc.
    apply firstAccepted_single in Hc.
    assert (Hnone : offer f2 {| respPckt := None; returnNull := false |} [msg] = None).
    { apply (offer_None _ f2 Hf2). intros m [<- | []] Hm.
      unfold rejectsPuzzleSolution, respondsPuzzleSolution in *.
      destruct Hc as [(T1 & r1 & D1 & C1 & G1) | (T1 & r1 & D1 & C1 & G1)];
        destruct Hm as [(T2 & r2 & D2 & C2 & G2) | (T2 & r2 & D2 & C2 & G2)];
        try congruence;
        assert (r1 = r2) by congruence; subst r2; destruct Hdiff; congruence. }
    unfold consumedFrame. now rewrite Hnone.
  - intros Hdiff.
    destruct (getBlocksHeaders_awaits start1 end1) as (f1 & k1 & -> & _ & Hf1 & _).
    destruct (getBlocksHeaders_awaits start2 end2) as (f2 & k2 & -> & _ & Hf2 & _).
    intros Hc. apply (await_consumed_iff _ f1 _ k1 Hf1) in Hc.
    apply firstAccepted_single in Hc.
    assert (Hnone : offer f2 {| respPckt := None; returnNull := false |} [msg] = None).
    { apply (offer_None _ f2 Hf2). intros m [<- | []] Hm.
      unfold rejectsHeaderBlocks, respondsHeaderBlocks in *.
      destruct Hc as [(T1 & r1 & D1 & C1 & G1) | (T1 & r1 & D1 & C1 & G1)];
        destruct Hm as [(T2 & r2 & D2 & C2 & G2) | (T2 & r2 & D2 & C2 & G2)];
        try congruence;
        assert (r1 = r2) by congruence; subst r2; destruct Hdiff; congruence. }
    unfold consumedFrame. now rewrite Hnone.
Qed.

(** *** The peak watcher *)

Lemma connect_consumeMessage_spec (msg : Message Buffer) (this : LeafletProvider) :
  match connect_consumeMessage msg this with
  | Ok (true, this') =>
      announcesPeak msg /\
      exists pckt : NewPeakWallet.t,
        deserialize (data msg) = Some pckt /\
        Z.abs (NewPeakWallet.height pckt) <= MAX_SAFE /\
        this' = {| messageManager := messageManager this;
                   blockNumber := Some (NewPeakWallet.height pckt);
                   networkId := networkId this |}
  | Ok (false, this') => ~ announcesPeak msg /\ this' = this
  | Raise _ => ~ announcesPeak msg
  end.
Proof.
  unfold connect_consumeMessage, toNumber, announcesPeak.
  cbv beta delta [bind ret get put decode liftOutcome].
  destruct (type_eqb_spec (type msg) new_peak_wallet) as [Hty | Hty]; simpl.
  - destruct (deserialize (data msg)) as [pckt|] eqn:Hp.
    + destruct (Z.leb_spec (Z.abs (NewPeakWallet.height pckt)) MAX_SAFE) as [Hle | Hgt].
      * split; [split; [assumption | eauto] | eauto].
      * intros (_ & p & [= <-] & Hle). lia.
    + intros (_ & p & Hp' & _). discriminate.
  - split; [| reflexivity]. intros [Hty' _]. contradiction.
Qed.

(** X12: the peak watcher never touches anything but [blockNumber]: after
    any frames the network id and the connection flag are as before, and a
    block number that [getBlockNumber] reports is either the one held
    before or the height of one of those frames, a [new_peak_wallet] that
    decodes, within the safe-integer range. *)
Theorem peak_watcher_invariants (this : LeafletProvider)
    (frames : list (Message Buffer)) :
  getNetworkId (feed connect this frames) = getNetworkId this /\
  isConnected (feed connect this frames) = isConnected this /\
  (getBlockNumber (Buffer := Buffer) (feed connect this frames)
     = getBlockNumber (Buffer := Buffer) this \/
   exists msg (pckt : NewPeakWallet.t),
     In msg frames /\ type msg = new_peak_wallet /\
     deserialize (data msg) = Some pckt /\
     Z.abs (NewPeakWallet.height pckt) <= MAX_SAFE /\
     getBlockNumber (Buffer := Buffer) (feed connect this frames)
       = Return (Some (NewPeakWallet.height pckt))).
Proof.
  unfold getNetworkId, isConnected, getBlockNumber.
  revert this. induction frames as [|m rest IH]; intros this; simpl.
  - auto.
  - pose proof (connect_consumeMessage_spec m this) as Hm.
    destruct (connect_consumeMessage m this) as [[[|] this']|e].
    + destruct Hm as ([Hty _] & pckt & Hp & Hle & ->).
      destruct (IH {| messageManager := messageManager this;
                      blockNumber := Some (NewPeakWallet.height pckt);
                      networkId := networkId this |}) as (Hn & Hc & Hb).
      simpl in *. split; [assumption |]. split; [assumption |]. right.
      destruct Hb as [Hb | (msg & p & Hin & Hty' & Hp' & Hle' & Hb)].
      * exists m, pckt. rewrite Hb. auto 8.
      * exists msg, p. auto 8.
    + destruct Hm as [_ ->].
      destruct (IH this) as (Hn & Hc & [Hb | (msg & p & Hin & Hrest)]).
      * auto.
      * split; [assumption |]. split; [assumption |]. right. exists msg, p. tauto.
    + destruct (IH this) as (Hn & Hc & [Hb | (msg & p & Hin & Hrest)]).
      * auto.
      * split; [assumption |]. split; [assumption |]. right. exists msg, p. tauto.
Qed.

End ProviderTrafficFacts.

(** ** Subscriptions that are registered *)

Section SubscriptionFacts.
Context {Buffer HeaderBlock : Type}.
Context `{AddressUtil} `{CoinUtil} `{Serializer Buffer HeaderBlock}.

(** X14: with a puzzle hash that passes validation,
    [subscribeToPuzzleHashUpdates] installs a filter that is kept after a
    match and has no timeout.  Each further frame that is a
    [respond_to_ph_update] containing the validated hash runs the callback
    exactly once, with exactly the coin states of that frame whose puzzle
    hash is the subscribed one; any other frame leaves the callback
    alone. *)
Theorem subscribeToPuzzleHashUpdates_delivery {U : Type} (puzzleHash : string)
    (callback : list CoinState.t -> U -> U) (minHeight : option Z)
    (u : U) (frames : list (Message Buffer)) (msg : Message Buffer) :
  ~ failsValidation puzzleHash ->
  (exists f,
     subscribeToPuzzleHashUpdates puzzleHash callback minHeight = Some f /\
     deleteAfterFirstMessageConsumed f = Some false /\
     expectedMaxRensponseWait f = Some 0) /\
  (forall rPckt : RespondToPhUpdates.t,
     type msg = respond_to_ph_update ->
     deserialize (data msg) = Some rPckt ->
     In (validateHashString puzzleHash) (RespondToPhUpdates.puzzleHashes rPckt) ->
     deliver (subscribeToPuzzleHashUpdates puzzleHash callback minHeight) u
             (frames ++ [msg])%list
     = callback
         (filter (fun cs => (Coin.puzzleHash (CoinState.coin cs)
                             =? validateHashString puzzleHash)%string)
                 (RespondToPhUpdates.coinStates rPckt))
         (deliver (subscribeToPuzzleHashUpdates puzzleHash callback minHeight) u frames)) /\
  (~ answersPhUpdate (validateHashString puzzleHash) msg ->
   deliver (subscribeToPuzzleHashUpdates puzzleHash callback minHeight) u
           (frames ++ [msg])%list
   = deliver (subscribeToPuzzleHashUpdates puzzleHash callback minHeight) u frames).
Proof.
  intros Hvalid. apply isEmpty_false in Hvalid.
  unfold subscribeToPuzzleHashUpdates. rewrite Hvalid.
  set (ph := validateHashString puzzleHash).
  set (f := {| messageToSend := _ |}).
  split; [exists f; auto |].
  unfold deliver. rewrite feed_app.
  set (u' := feed f u frames).
  unfold feed, f, consumeMessage.
  cbv beta delta [bind ret decode call].
  split.
  - intros rPckt Hty Hr Hin.
    destruct (type_eqb_spec (type msg) respond_to_ph_update); [| contradiction].
    simpl. rewrite Hr. apply includes_In in Hin. fold ph. rewrite Hin. reflexivity.
  - intros Hn. unfold answersPhUpdate in Hn.
    destruct (type_eqb_spec (type msg) respond_to_ph_update) as [Hty | Hty];
      [| reflexivity].
    simpl. destruct (deserialize (data msg)) as [r|] eqn:Hr; [| reflexivity].
    destruct (includes ph (RespondToPhUpdates.puzzleHashes r)) eqn:Hin; [| reflexivity].
    exfalso. apply Hn. apply includes_In in Hin. eauto.
Qed.

(** X15: with a coin id that passes validation, [subscribeToCoinUpdates]
    installs a filter that is kept after a match and has no timeout.  Each
    further frame that is a [respond_to_coin_update] containing the
    validated id runs the callback exactly once, with exactly the coin
    states of that frame whose coin has that id; any other frame leaves
    the callback alone. *)
Theorem subscribeToCoinUpdates_delivery {U : Type} (coinId : string)
    (callback : list CoinState.t -> U -> U) (minHeight : option Z)
    (u : U) (frames : list (Message Buffer)) (msg : Message Buffer) :
  ~ failsValidation coinId ->
  (exists f,
     subscribeToCoinUpdates coinId callback minHeight = Some f /\
     deleteAfterFirstMessageConsumed f = Some false /\
     expectedMaxRensponseWait f = Some 0) /\
  (forall rPckt : RespondToCoinUpdates.t,
     type msg = respond_to_coin_update ->
     deserialize (data msg) = Some rPckt ->
     In (validateHashString coinId) (RespondToCoinUpdates.coinIds rPckt) ->
     deliver (subscribeToCoinUpdates coinId callback minHeight) u (frames ++ [msg])%list
     = callback
         (filter (fun cs => (getId (CoinState.coin cs) =? validateHashString coinId)%string)
                 (RespondToCoinUpdates.coinStates rPckt))
         (deliver (subscribeToCoinUpdates coinId callback minHeight) u frames)) /\
  (~ answersCoinUpdate (validateHashString coinId) msg ->
   deliver (subscribeToCoinUpdates coinId callback minHeight) u (frames ++ [msg])%list
   = deliver (subscribeToCoinUpdates coinId callback minHeight) u frames).
Proof.
  intros Hvalid. apply isEmpty_false in Hvalid.
  unfold subscribeToCoinUpdates. rewrite Hvalid.
  set (cid := validateHashString coinId).
  set (f := {| messageToSend := _ |}).
  split; [exists f; auto |].
  unfold deliver. rewrite feed_app.
  set (u' := feed f u frames).
  unfold feed, f, consumeMessage.
  cbv beta delta [bind ret decode call].
  split.
  - intros rPckt Hty Hr Hin.
    destruct (type_eqb_spec (type msg) respond_to_coin_update); [| contradiction].
    simpl. rewrite Hr. apply includes_In in Hin. fold cid. rewrite Hin. reflexivity.
  - intros Hn. unfold answersCoinUpdate in Hn.
    destruct (type_eqb_spec (type msg) respond_to_coin_update) as [Hty | Hty];
      [| reflexivity].
    simpl. destruct (deserialize (data msg)) as [r|] eqn:Hr; [| reflexivity].
    destruct (includes cid (RespondToCoinUpdates.coinIds r)) eqn:Hin; [| reflexivity].
    exfalso. apply Hn. apply includes_In in Hin. eauto.
Qed.
End SubscriptionFacts.

(** ** Bounds on the balance *)

Lemma sum_filter_bounds {A} (w : A -> Z) (p : A -> bool) (l : list A) :
  (forall x, In x l -> 0 <= w x) ->
  0 <= fold_right Z.add 0 (map w (filter p l)) <= fold_right Z.add 0 (map w l).
Proof.
  induction l as [|x rest IH]; intros Hpos; simpl.
  - lia.
  - assert (Hx : 0 <= w x) by (apply Hpos; now left).
    assert (Hrest : forall y, In y rest -> 0 <= w y) by (intros y Hy; apply Hpos; now right).
    specialize (IH Hrest). destruct (p x); simpl; lia.
Qed.

Section BalanceFacts.
Context {Buffer HeaderBlock : Type}.
Context `{AddressUtil} `{Serializer Buffer HeaderBlock}.

(** X16: when no coin state of the completing frame has a negative amount,
    the balance [getBalance] returns is not negative and is at most the
    sum of all amounts in that frame; it is zero when the frame lists no
    coin state at all. *)
Theorem getBalance_bounds (address puzzleHash : option string) (minHeight : option Z)
    (puzHash : bytes) (frames : list (Message Buffer)) (msg : Message Buffer)
    (rPckt : RespondToPhUpdates.t) :
  getBalance_puzHash address puzzleHash = Some puzHash ->
  consumedFrame (getBalance address puzzleHash minHeight) frames = Some msg ->
  deserialize (data msg) = Some rPckt ->
  (forall cs, In cs (RespondToPhUpdates.coinStates rPckt) ->
              0 <= Coin.amount (CoinState.coin cs)) ->
  exists balance,
    complete (getBalance address puzzleHash minHeight) frames = Some (Ok (Some balance)) /\
    0 <= balance <=
      fold_right Z.add 0
        (map (fun cs => Coin.amount (CoinState.coin cs))
             (RespondToPhUpdates.coinStates rPckt)) /\
    (RespondToPhUpdates.coinStates rPckt = [] -> balance = 0).
Proof.
  intros Hph. unfold getBalance. rewrite Hph. cbv beta iota.
  set (f := {| messageToSend := _ |}).
  set (k := fun coinStates : list CoinState.t => _).
  assert (Hf : acceptsExactly (answersPhUpdate puzHash) f)
    by apply getBalance_filter_accepts.
  intros Hc Hr Hpos.
  destruct (await_complete _ f [] k Hf frames msg Hc) as (l & Hcons & Hcomplete).
  simpl in Hcons.
  destruct (getBalance_consumeMessage_cases puzHash msg [])
    as [(r & _ & Hr' & E) | (_ & [E | [e E]])];
    rewrite E in Hcons; inversion Hcons; subst l.
  assert (r = rPckt) by congruence. subst r.
  eexists. split; [etransitivity; [exact Hcomplete | reflexivity] |].
  rewrite filter_filter, fold_left_add_sum, Z.add_0_l.
  split.
  - apply (sum_filter_bounds (fun cs => Coin.amount (CoinState.coin cs))). exact Hpos.
  - intros ->. reflexivity.
Qed.
End BalanceFacts.

(** ** The further theorems at concrete inputs *)

#[local] Existing Instance SampleRest.headerBlockFields.
#[local] Existing Instance SampleRest.serializer.
#[local] Existing Instance SampleRest.providerUtil.

Example getBlockHeader_at_100 :
  complete (getBlockHeader 100) SampleRest.headerFrames
  = Some (Ok (Some {| Sample.height := 100; Sample.headerHash := "ab" |})).
Proof. reflexivity. Qed.

Example getCoinAdditions_flattens :
  complete (getCoinAdditions 7 Sample.otherPuzzleHash None) SampleRest.additionsFrames
  = Some (Ok (Some [SampleRest.mkCoin Sample.someCoinId 1;
                    SampleRest.mkCoin Sample.someCoinId 2;
                    SampleRest.mkCoin Sample.otherPuzzleHash 3])).
Proof. reflexivity. Qed.

Example getCoinRemovals_skips_null_coins :
  complete (getCoinRemovals 7 Sample.otherPuzzleHash (Some [])) sampleRemovalsFrames
  = Some (Ok (Some [SampleRest.mkCoin Sample.someCoinId 5;
                    SampleRest.mkCoin Sample.someCoinId 6])).
Proof. reflexivity. Qed.

Lemma sample_header_hash_validates : ~ failsValidation Sample.otherPuzzleHash.
Proof. intros Hf. vm_compute in Hf. discriminate. Qed.

Lemma sample_puzzle_hash_validates : ~ failsValidation Sample.knownPuzzleHash.
Proof. intros Hf. vm_compute in Hf. discriminate. Qed.

Lemma getBlockHeader_answer_witness :
  complete (getBlockHeader 100) SampleRest.headerFrames
    = Some (Ok (Some {| Sample.height := 100; Sample.headerHash := "ab" |})) /\
  complete (getBlockHeader 99) SampleRest.headerFrames = Some (Ok None).
Proof.
  assert (Hresp : consumedFrame (getBlockHeader 100) SampleRest.headerFrames
                  = Some (SampleRest.headerRespond 100)) by reflexivity.
  assert (Hrej : consumedFrame (getBlockHeader 99) SampleRest.headerFrames
                 = Some (SampleRest.headerReject 99)) by reflexivity.
  split.
  - destruct (getBlockHeader_answer 100 SampleRest.headerFrames
                (SampleRest.headerRespond 100)
                (Sample.height : @ProviderBlockHeader _ SampleRest.providerUtil -> BigNumber)
                (fun headerBlock h => eq_refl))
      as (_ & _ & Hresult).
    apply (proj2 (Hresult Hresp)
             {| RespondBlockHeader.headerBlock :=
                  {| SampleRest.rewardHeight := 100; SampleRest.hash := "ab" |} |});
      reflexivity.
  - destruct (getBlockHeader_answer 99 SampleRest.headerFrames
                (SampleRest.headerReject 99)
                (Sample.height : @ProviderBlockHeader _ SampleRest.providerUtil -> BigNumber)
                (fun headerBlock h => eq_refl))
      as (_ & _ & Hresult).
    apply (proj1 (Hresult Hrej)). reflexivity.
Defined.

Lemma getCoinAdditions_validation_witness :
  getCoinAdditions (Buffer := SampleRest.Wire) 7 Sample.otherPuzzleHash
                   (Some [Sample.knownPuzzleHash; "xyz"]) = Return None /\
  frameSent (getCoinAdditions 7 Sample.otherPuzzleHash (Some [])) =
    Some {| type := request_additions;
            data := SampleRest.WRequestAdditions
                      {| RequestAdditions.height := 7;
                         RequestAdditions.headerHash := Sample.otherPuzzleHash;
                         RequestAdditions.puzzleHashes := Some [] |} |}.
Proof.
  split.
  - apply (proj1 (getCoinAdditions_validation 7 Sample.otherPuzzleHash
                    (Some [Sample.knownPuzzleHash; "xyz"]))).
    right. exists [Sample.knownPuzzleHash; "xyz"], "xyz".
    split; [reflexivity |]. split; [simpl; auto | reflexivity].
  - rewrite (proj2 (getCoinAdditions_validation 7 Sample.otherPuzzleHash (Some []))).
    + reflexivity.
    + intros [Hf | (hashes & c & [= <-] & [] & _)]. vm_compute in Hf. discriminate.
Defined.

Lemma getCoinAdditions_answer_witness :
  registersFilter (getCoinAdditions (Buffer := SampleRest.Wire) 7 Sample.otherPuzzleHash None)
    = true /\
  complete (getCoinAdditions 7 Sample.otherPuzzleHash None) SampleRest.additionsFrames
  = Some (Ok (Some [SampleRest.mkCoin Sample.someCoinId 1;
                    SampleRest.mkCoin Sample.someCoinId 2;
                    SampleRest.mkCoin Sample.otherPuzzleHash 3])).
Proof.
  assert (Hreg : registersFilter
                   (getCoinAdditions (Buffer := SampleRest.Wire) 7 Sample.otherPuzzleHash None)
                 = true) by reflexivity.
  assert (Hc : consumedFrame (getCoinAdditions 7 Sample.otherPuzzleHash None)
                             SampleRest.additionsFrames
               = Some (SampleRest.additionsRespond 7)) by reflexivity.
  split; [exact Hreg |].
  destruct (getCoinAdditions_answer 7 Sample.otherPuzzleHash None
              SampleRest.additionsFrames (SampleRest.additionsRespond 7) Hreg)
    as [_ Hresult].
  rewrite (proj2 (Hresult Hc) _ eq_refl eq_refl). reflexivity.
Defined.

Lemma getCoinRemovals_answer_witness :
  registersFilter (getCoinRemovals (Buffer := Sample.Wire) 7 Sample.otherPuzzleHash (Some []))
    = true /\
  exists coins,
    complete (getCoinRemovals 7 Sample.otherPuzzleHash (Some [])) sampleRemovalsFrames
      = Some (Ok (Some coins)) /\
    coins = [SampleRest.mkCoin Sample.someCoinId 5; SampleRest.mkCoin Sample.someCoinId 6] /\
    length coins = 2%nat.
Proof.
  assert (Hreg : registersFilter
                   (getCoinRemovals (Buffer := Sample.Wire) 7 Sample.otherPuzzleHash (Some []))
                 = true) by reflexivity.
  assert (Hc : consumedFrame (getCoinRemovals 7 Sample.otherPuzzleHash (Some []))
                             sampleRemovalsFrames
               = Some sampleRemovalsRespond) by reflexivity.
  split; [exact Hreg |].
  destruct (getCoinRemovals_answer 7 Sample.otherPuzzleHash (Some [])
              sampleRemovalsFrames sampleRemovalsRespond Hreg)
    as [_ Hresult].
  destruct (proj2 (Hresult Hc) _ eq_refl eq_refl) as (coins & Hcomplete & Hcoins & Hlen).
  exists coins. split; [exact Hcomplete |]. split; [exact Hcoins | exact Hlen].
Defined.

Lemma getPuzzleSolution_invalid_coinId_witness :
  failsValidation "c0ffee" /\
  getPuzzleSolution (Buffer := Sample.Wire) "c0ffee" 5 = Return None /\
  complete (getPuzzleSolution "c0ffee" 5) Sample.solutionFrames = Some (Ok None).
Proof.
  assert (Hfails : failsValidation "c0ffee") by reflexivity.
  split; [exact Hfails |].
  destruct (getPuzzleSolution_invalid_coinId "c0ffee" 5 Sample.solutionFrames Hfails)
    as (Hreturn & _ & _ & Hcomplete).
  split; [exact Hreturn | exact Hcomplete].
Defined.

Lemma requests_carry_validated_hashes_witness :
  exists pckt : RequestRemovals.t,
    RequestRemovals.headerHash pckt <> "" /\
    forall names, RequestRemovals.coinNames pckt = Some names ->
                  forall c, In c names -> c <> "".
Proof.
  pose (msg := {| type := request_removals;
                  data := Sample.WRequestRemovals
                            {| RequestRemovals.height := 7;
                               RequestRemovals.headerHash := Sample.otherPuzzleHash;
                               RequestRemovals.coinNames := Some [Sample.someCoinId] |} |}).
  assert (Hsent : frameSent (getCoinRemovals 7 Sample.otherPuzzleHash
                               (Some [Sample.someCoinId])) = Some msg) by reflexivity.
  destruct (requests_carry_validated_hashes (U := unit) Sample.otherPuzzleHash 7
              (Some [Sample.someCoinId]) (fun _ u => u) None msg)
    as (_ & _ & Hremovals & _).
  destruct (Hremovals Hsent) as (pckt & _ & _ & _ & Hne & _ & Hnames).
  exists pckt. split; [exact Hne | exact Hnames].
Defined.

Lemma getBalance_address_precedence_witness :
  getBalance (Buffer := Sample.Wire) (Some "xch1notanaddress") (Some Sample.knownPuzzleHash)
             None = Return None /\
  getBalance (Buffer := Sample.Wire) (Some "txch1other") (Some Sample.knownPuzzleHash) None
  = getBalance None (Some Sample.knownPuzzleHash) None.
Proof.
  split.
  - apply (proj1 (getBalance_address_precedence "xch1notanaddress"
                    (Some Sample.knownPuzzleHash) None)); reflexivity.
  - apply (proj2 (getBalance_address_precedence "txch1other"
                    (Some Sample.knownPuzzleHash) None)). reflexivity.
Defined.


Lemma requests_depend_on_consumed_frame_only_witness :
  complete (getBalance (Some Sample.knownAddress) None None) Sample.balanceFrames
  = complete (getBalance (Some Sample.knownAddress) None None) [Sample.balanceUpdate].
Proof.
  assert (Hc : consumedFrame (getBalance (Some Sample.knownAddress) None None)
                             Sample.balanceFrames
               = Some Sample.balanceUpdate) by reflexivity.
  exact (proj1 (requests_depend_on_consumed_frame_only
                  (Some Sample.knownAddress) None None Sample.someCoinId
                  Sample.otherPuzzleHash 5 100 102 None
                  Sample.balanceFrames Sample.balanceUpdate) Hc).
Defined.

Lemma requests_with_different_keys_do_not_collide_witness :
  consumedFrame (getPuzzleSolution Sample.someCoinId 6) [Sample.solutionRespond] = None /\
  consumedFrame (getBlocksHeaders 100 103) [Sample.headersRespond 100 102] = None.
Proof.
  assert (Hsol : consumedFrame (getPuzzleSolution Sample.someCoinId 5)
                               [Sample.solutionRespond]
                 = Some Sample.solutionRespond) by reflexivity.
  assert (Hhdr : consumedFrame (getBlocksHeaders 100 102) [Sample.headersRespond 100 102]
                 = Some (Sample.headersRespond 100 102)) by reflexivity.
  split.
  - apply (proj1 (requests_with_different_keys_do_not_collide
                    Sample.someCoinId Sample.someCoinId 5 6 100 102 100 103
                    Sample.solutionRespond
                    sample_coin_id_validates sample_coin_id_validates));
      [right; discriminate | exact Hsol].
  - apply (proj2 (requests_with_different_keys_do_not_collide
                    Sample.someCoinId Sample.someCoinId 5 6 100 102 100 103
                    (Sample.headersRespond 100 102)
                    sample_coin_id_validates sample_coin_id_validates));
      [right; discriminate | exact Hhdr].
Defined.

Lemma subscribeToPuzzleHashUpdates_delivery_witness :
  deliver (subscribeToPuzzleHashUpdates Sample.knownPuzzleHash logCall None) []
          ([Sample.otherUpdate] ++ [Sample.balanceUpdate])
  = [[Sample.mkCoinState Sample.someCoinId Sample.knownPuzzleHash 100 None;
      Sample.mkCoinState Sample.someCoinId Sample.knownPuzzleHash 250 None;
      Sample.mkCoinState Sample.someCoinId Sample.knownPuzzleHash 40 (Some 42)]].
Proof.
  destruct (subscribeToPuzzleHashUpdates_delivery Sample.knownPuzzleHash logCall None []
              [Sample.otherUpdate] Sample.balanceUpdate sample_puzzle_hash_validates)
    as (_ & Hcall & _).
  rewrite (Hcall _ eq_refl eq_refl); [reflexivity |].
  simpl. right. left. reflexivity.
Defined.

Lemma subscribeToCoinUpdates_delivery_witness :
  deliver (subscribeToCoinUpdates Sample.someCoinId logCall None) []
          ([Sample.balanceUpdate] ++ [sampleCoinUpdate])
  = [[Sample.mkCoinState "" Sample.someCoinId 11 None]].
Proof.
  destruct (subscribeToCoinUpdates_delivery Sample.someCoinId logCall None []
              [Sample.balanceUpdate] sampleCoinUpdate sample_coin_id_validates)
    as (_ & Hcall & _).
  rewrite (Hcall _ eq_refl eq_refl); [reflexivity |].
  simpl. left. reflexivity.
Defined.

Lemma getBalance_bounds_witness :
  exists balance,
    complete (getBalance (Some Sample.knownAddress) None None) Sample.balanceFrames
      = Some (Ok (Some balance)) /\
    0 <= balance <= 100 + 250 + 7 + 40.
Proof.
  assert (Hph : getBalance_puzHash (Some Sample.knownAddress) None
                = Some Sample.knownPuzzleHash) by reflexivity.
  assert (Hc : consumedFrame (getBalance (Some Sample.knownAddress) None None)
                             Sample.balanceFrames
               = Some Sample.balanceUpdate) by reflexivity.
  destruct (getBalance_bounds (Some Sample.knownAddress) None None Sample.knownPuzzleHash
              Sample.balanceFrames Sample.balanceUpdate _ Hph Hc eq_refl)
    as (balance & Hcomplete & Hbounds & _).
  - intros cs [<- | [<- | [<- | [<- | []]]]]; simpl; lia.
  - exists balance. split; [exact Hcomplete | exact Hbounds].
Defined.
